(** * The redirect-resolution worker (src/worker/worker.js)

    A shallow embedding of the worker's [fetch] handler and of the parts of
    the Web platform it touches, followed by the properties of the handler.

    Conventions.
    - A JavaScript string is a [string]; every literal of the worker is
      ASCII, and the platform hands the worker percent-encoded URL text.
    - A thrown value is an [Error], of which only [message] is read.
    - Code that may throw returns a [Completion]; code that may also call the
      global [fetch] runs in [Eff], which keeps the list of the calls made.
    - The URL parser and the network belong to the runtime, not to the
      worker: they are the two operations of a [Host].  The parts of the URL
      and Fetch standards that are plain algorithms (header lists, the
      application/x-www-form-urlencoded format, the URL serialiser, the
      checks of the [Response] constructor) are written out.  Header values
      set by the worker are serialised URLs, header values or literals, so
      the value normalisation of [Headers.set] is the identity on them and is
      left out. *)

From Stdlib Require Import String Ascii List ZArith Bool Lia.
Import ListNotations.
Open Scope string_scope.
Open Scope list_scope.

(** ** Strings *)

Module Str.

(** [s.startsWith(p)] *)
Definition startsWith (p s : string) : bool := String.prefix p s.

(** [s.includes(p)] *)
Fixpoint includes (p s : string) : bool :=
  String.prefix p s ||
  match s with
  | EmptyString => false
  | String _ r => includes p r
  end.

(** [s.slice(1)] *)
Definition slice1 (s : string) : string :=
  match s with
  | EmptyString => EmptyString
  | String _ r => r
  end.

(** ASCII lower-casing of one byte, as used to compare header names. *)
Definition lower_ascii (c : ascii) : ascii :=
  let n := nat_of_ascii c in
  if (65 <=? n)%nat && (n <=? 90)%nat then ascii_of_nat (n + 32) else c.

Fixpoint lower (s : string) : string :=
  match s with
  | EmptyString => EmptyString
  | String c r => String (lower_ascii c) (lower r)
  end.

(** [xs.join(sep)] *)
Fixpoint join (sep : string) (xs : list string) : string :=
  match xs with
  | [] => ""
  | [x] => x
  | x :: rest => x ++ sep ++ join sep rest
  end.

(** The pieces of [s] between occurrences of [sep]; never the empty list. *)
Fixpoint split_on (sep : ascii) (s : string) : list string :=
  match s with
  | EmptyString => [""]
  | String c r =>
      if Ascii.eqb c sep then "" :: split_on sep r
      else match split_on sep r with
           | x :: xs => String c x :: xs
           | [] => [String c ""]
           end
  end.

(** [s] cut at the first [sep]: the text before it and, when [sep] occurs,
    the text after it. *)
Fixpoint cut (sep : ascii) (s : string) : string * option string :=
  match s with
  | EmptyString => ("", None)
  | String c r =>
      if Ascii.eqb c sep then ("", Some r)
      else let (a, b) := cut sep r in (String c a, b)
  end.

(** [sep] occurs in [s]. *)
Fixpoint mem (sep : ascii) (s : string) : bool :=
  match s with
  | EmptyString => false
  | String c r => Ascii.eqb c sep || mem sep r
  end.

End Str.

(** ** Header lists (Fetch Standard, 2.2.2) *)

Module Headers.

(** An ordered list of name/value pairs; names compare ASCII
    case-insensitively and may repeat. *)
Definition t := list (string * string).

Definition same_name (a b : string) : bool :=
  String.eqb (Str.lower a) (Str.lower b).

Definition named (n : string) (p : string * string) : bool :=
  same_name n (fst p).

(** [headers.get(n)]: the values of every header named [n], joined by a
    comma and a space; [None] is JavaScript's [null]. *)
Definition get (n : string) (h : t) : option string :=
  match map snd (filter (named n) h) with
  | [] => None
  | vs => Some (Str.join ", " vs)
  end.

Definition remove (n : string) (h : t) : t :=
  filter (fun p => negb (named n p)) h.

(** [headers.set(n, v)]: the first header named [n] takes the value [v] and
    the others are removed; without one, the header is appended. *)
Fixpoint set (n v : string) (h : t) : t :=
  match h with
  | [] => [(n, v)]
  | (k, w) :: r =>
      if same_name n k then (k, v) :: remove n r
      else (k, w) :: set n v r
  end.

Definition has (n : string) (h : t) : bool := existsb (named n) h.

(** [new Headers(h)]: a mutable copy. *)
Definition copy (h : t) : t := h.

End Headers.

(** ** application/x-www-form-urlencoded (URL Standard, 5) *)

Module FormUrlencoded.

Definition hex_digits : list ascii :=
  ["0"; "1"; "2"; "3"; "4"; "5"; "6"; "7";
   "8"; "9"; "A"; "B"; "C"; "D"; "E"; "F"]%char.

Definition hex_digit (n : nat) : ascii := nth n hex_digits "0"%char.

(** The value of an ASCII hex digit, of either case. *)
Definition hex_value (c : ascii) : option nat :=
  let n := nat_of_ascii c in
  if (48 <=? n)%nat && (n <=? 57)%nat then Some (n - 48)
  else if (65 <=? n)%nat && (n <=? 70)%nat then Some (n - 55)
  else if (97 <=? n)%nat && (n <=? 102)%nat then Some (n - 87)
  else None.

(** Percent-decoding: a [%] followed by two hex digits is the byte they
    spell; any other byte, a stray [%] included, stands for itself. *)
Fixpoint percent_decode (s : string) : string :=
  match s with
  | EmptyString => EmptyString
  | String c r =>
      if Ascii.eqb c "%" then
        match r with
        | String h (String l r') =>
            match hex_value h, hex_value l with
            | Some a, Some b =>
                String (ascii_of_nat (16 * a + b)) (percent_decode r')
            | _, _ => String c (percent_decode r)
            end
        | _ => String c (percent_decode r)
        end
      else String c (percent_decode r)
  end.

Fixpoint plus_to_space (s : string) : string :=
  match s with
  | EmptyString => EmptyString
  | String c r =>
      String (if Ascii.eqb c "+" then " "%char else c) (plus_to_space r)
  end.

(** The bytes the serialiser leaves as they are: ASCII alphanumerics and
    [*], [-], [.], [_]. *)
Definition unreserved (c : ascii) : bool :=
  let n := nat_of_ascii c in
  ((48 <=? n)%nat && (n <=? 57)%nat) ||
  ((65 <=? n)%nat && (n <=? 90)%nat) ||
  ((97 <=? n)%nat && (n <=? 122)%nat) ||
  (n =? 42)%nat || (n =? 45)%nat || (n =? 46)%nat || (n =? 95)%nat.

Definition encode_byte (c : ascii) : string :=
  if Ascii.eqb c " " then "+"
  else if unreserved c then String c ""
  else
    let n := nat_of_ascii c in
    String "%" (String (hex_digit (n / 16)) (String (hex_digit (n mod 16)) "")).

Fixpoint encode (s : string) : string :=
  match s with
  | EmptyString => EmptyString
  | String c r => encode_byte c ++ encode r
  end.

Definition decode (s : string) : string := percent_decode (plus_to_space s).

(** One [name=value] sequence of a query; a sequence without [=] is a name
    with the empty value. *)
Definition parse_pair (s : string) : string * string :=
  match Str.cut "=" s with
  | (n, Some v) => (decode n, decode v)
  | (n, None) => (decode n, "")
  end.

Definition nonempty (s : string) : bool :=
  match s with EmptyString => false | _ => true end.

(** The parser: split on [&], skip empty sequences. *)
Definition parse (s : string) : list (string * string) :=
  map parse_pair (filter nonempty (Str.split_on "&" s)).

Definition serialize_pair (p : string * string) : string :=
  encode (fst p) ++ "=" ++ encode (snd p).

(** The serialiser: the pairs joined by [&]. *)
Definition serialize (l : list (string * string)) : string :=
  Str.join "&" (map serialize_pair l).

End FormUrlencoded.

(** ** URL objects (URL Standard, 4 and 6) *)

Module URLSearchParams.

Definition t := list (string * string).

Definition named (n : string) (p : string * string) : bool :=
  String.eqb n (fst p).

(** [params.get(n)]: the value of the first pair named [n], or [null]. *)
Definition get (n : string) (l : t) : option string :=
  option_map snd (find (named n) l).

Definition has (n : string) (l : t) : bool := existsb (named n) l.

(** The list left by [params.delete(n)]: every pair named [n] is gone. *)
Definition delete (n : string) (l : t) : t :=
  filter (fun p => negb (named n p)) l.

End URLSearchParams.

(** A parsed URL.  [origin] is everything the serialiser writes before the
    path: scheme, [://], credentials, host and port. *)
Record URL : Type := mkURL {
  origin : string;
  pathname : string;
  query : option string;     (* without its [?]; [None] is the null query *)
  fragment : option string   (* without its [#] *)
}.

Module Url.

(** [url.search]: empty for a null or empty query. *)
Definition search (u : URL) : string :=
  match query u with
  | None => ""
  | Some EmptyString => ""
  | Some q => "?" ++ q
  end.

(** [url.searchParams]: the query, parsed. *)
Definition searchParams (u : URL) : URLSearchParams.t :=
  FormUrlencoded.parse (match query u with Some q => q | None => "" end).

(** The URL after [url.searchParams.delete(n)]: the remaining pairs are
    serialised back into the query, and an empty serialisation makes the
    query null. *)
Definition searchParams_delete (n : string) (u : URL) : URL :=
  let q := FormUrlencoded.serialize (URLSearchParams.delete n (searchParams u)) in
  mkURL (origin u) (pathname u)
        (match q with EmptyString => None | _ => Some q end)
        (fragment u).

(** [url.toString()], the URL serialiser. *)
Definition toString (u : URL) : string :=
  origin u ++ pathname u
  ++ match query u with Some q => "?" ++ q | None => "" end
  ++ match fragment u with Some f => "#" ++ f | None => "" end.

(** The query a reader of the text [s] sees: what lies between the first
    [?] and the first [#]. *)
Definition query_text (s : string) : string :=
  match snd (Str.cut "?" (fst (Str.cut "#" s))) with
  | Some q => q
  | None => ""
  end.

(** The delimiters of URL text. *)
Definition delimiter (sep : ascii) : Prop :=
  sep = "&"%char \/ sep = "="%char \/ sep = "?"%char \/ sep = "#"%char.

(** The text [s] carries a query parameter named [n]. *)
Definition mentions (n s : string) : bool :=
  URLSearchParams.has n (FormUrlencoded.parse (query_text s)).

(** What every URL record made by a parser satisfies: neither delimiter
    occurs before the query. *)
Definition delimited (u : URL) : Prop :=
  Str.mem "?" (origin u ++ pathname u) = false /\
  Str.mem "#" (origin u ++ pathname u) = false.

End Url.

(** ** Completions and effects *)

(** A thrown value; the worker reads nothing but [error.message]. *)
Record Error : Type := mkError { message : string }.

Inductive Completion (A : Type) : Type :=
| Normal (a : A)
| Throw (e : Error).
Arguments Normal {A} a.
Arguments Throw {A} e.

(** Bodies: a string given to the [Response] constructor, or a stream handed
    over by the network (named by the bytes it will deliver). *)
Inductive Body : Type :=
| Text (s : string)
| Stream (s : string).

(** The [redirect] member of a request. *)
Inductive RequestRedirect : Type := follow | error | manual.

Module Request.
Record t : Type := mk {
  method : string;
  url : string;
  headers : Headers.t;
  body : option Body
}.
End Request.

(** The second argument of the global [fetch]; a member the caller leaves out
    is [None]. *)
Module RequestInit.
Record t : Type := mk {
  method : string;
  headers : Headers.t;
  redirect : RequestRedirect;
  body : option Body
}.
End RequestInit.

Module Response.
Record t : Type := mk {
  status : Z;
  headers : Headers.t;
  body : option Body;
  url : string            (* empty unless the response came from the network *)
}.
End Response.

(** One call of the global [fetch]. *)
Definition FetchCall : Type := (string * RequestInit.t)%type.

(** What the runtime provides: the URL parser behind [new URL(s)], the
    network behind the global [fetch] (which validates its input, follows
    redirects when asked to, and fails or answers), and the two errors of the
    [Response] constructor. *)
Record Host : Type := mkHost {
  URL_new : string -> Completion URL;
  network : string -> RequestInit.t -> Completion Response.t;
  status_range_error : Error;
  null_body_error : Error
}.

Definition null_body_status (s : Z) : bool :=
  ((s =? 101) || (s =? 103) || (s =? 204) || (s =? 205) || (s =? 304))%Z.

(** The global [fetch(input, init)].  Whatever the network delivered, the
    response of a [HEAD] or [CONNECT] request and a response with a null body
    status have a null body (Fetch Standard, 4.1, main fetch). *)
Definition global_fetch (host : Host) (input : string) (init : RequestInit.t)
  : Completion Response.t :=
  match network host input init with
  | Normal r =>
      Normal (Response.mk (Response.status r) (Response.headers r)
                (if String.eqb (RequestInit.method init) "HEAD"
                    || String.eqb (RequestInit.method init) "CONNECT"
                    || null_body_status (Response.status r)
                 then None else Response.body r)
                (Response.url r))
  | Throw e => Throw e
  end.

(** A computation that may call [fetch] and may throw: the calls made, in
    order, and how it completed. *)
Definition Eff (A : Type) : Type := (list FetchCall * Completion A)%type.

Definition ret {A} (a : A) : Eff A := ([], Normal a).

Definition lift {A} (c : Completion A) : Eff A := ([], c).

Definition bind {A B} (m : Eff A) (k : A -> Eff B) : Eff B :=
  match m with
  | (calls, Normal a) => let (calls', c) := k a in (calls ++ calls', c)
  | (calls, Throw e) => (calls, Throw e)
  end.

(** [try { m } catch (e) { handler e }] *)
Definition try_catch {A} (m : Eff A) (handler : Error -> Eff A) : Eff A :=
  match m with
  | (calls, Throw e) => let (calls', c) := handler e in (calls ++ calls', c)
  | done => done
  end.

(** [await fetch(input, init)] *)
Definition await_fetch (host : Host) (input : string) (init : RequestInit.t)
  : Eff Response.t :=
  ([(input, init)], global_fetch host input init).

Notation "x <- m ;; k" := (bind m (fun x => k))
  (at level 61, m at next level, right associativity).

Definition calls {A} (m : Eff A) : list FetchCall := fst m.
Definition completion {A} (m : Eff A) : Completion A := snd m.

(** ** The [Response] constructor (Fetch Standard, 5.5) *)

Definition status_in_range (s : Z) : bool := ((200 <=? s) && (s <=? 599))%Z.

(** A string body brings its content type unless the headers name one; a
    stream brings none. *)
Definition with_content_type (b : Body) (h : Headers.t) : Headers.t :=
  match b with
  | Text _ =>
      if Headers.has "Content-Type" h then h
      else h ++ [("content-type", "text/plain;charset=UTF-8")]
  | Stream _ => h
  end.

(** [new Response(body, { status, headers })] *)
Definition Response_new (host : Host) (b : option Body) (s : Z) (h : Headers.t)
  : Completion Response.t :=
  if negb (status_in_range s) then Throw (status_range_error host)
  else
    match b with
    | None => Normal (Response.mk s h None "")
    | Some x =>
        if null_body_status s then Throw (null_body_error host)
        else Normal (Response.mk s (with_content_type x h) (Some x) "")
    end.

(** ** The worker *)

Module Worker.

Definition userAgent : string :=
  "Mozilla/5.0 (compatible; Googlebot/2.1; +http://www.google.com/bot.html)".

Definition modeParam : string := "__proxy_redirect_mode".

Definition preflightHeaders : Headers.t :=
  [ ("Access-Control-Allow-Origin", "*");
    ("Access-Control-Allow-Methods", "GET, HEAD, POST, OPTIONS");
    ("Access-Control-Allow-Headers",
     "Content-Type, X-Final-Url, X-Proxy-Manual-Redirect") ].

Definition errorHeaders : Headers.t :=
  [ ("Access-Control-Allow-Origin", "*") ].

Definition usage : string := "Invalid URL. Usage: /https://example.com".

(** JavaScript truthiness of a string. *)
Definition truthy (s : string) : bool :=
  match s with EmptyString => false | _ => true end.

(** [a === b] where [a] may be [null] and [b] is a string. *)
Definition strict_eq (a : option string) (b : string) : bool :=
  match a with
  | Some s => String.eqb s b
  | None => false
  end.

(** Line 15: [url.pathname.slice(1) + url.search]. *)
Definition candidateUrl (url : URL) : string :=
  Str.slice1 (pathname url) ++ Url.search url.

(** Lines 24-25. *)
Definition isManualMode (request : Request.t) (url : URL) : bool :=
  strict_eq (Headers.get "X-Proxy-Manual-Redirect" (Request.headers request)) "true"
  || strict_eq (URLSearchParams.get modeParam (Url.searchParams url)) "manual".

(** Lines 27-34: the value of [targetUrl] after the inner [try]; its
    [catch] block is empty. *)
Definition strippedUrl (host : Host) (targetUrl : string) : string :=
  if Str.includes (modeParam ++ "=") targetUrl then
    match URL_new host targetUrl with
    | Normal targetUrlObj =>
        Url.toString (Url.searchParams_delete modeParam targetUrlObj)
    | Throw _ => targetUrl
    end
  else targetUrl.

(** Lines 36-42; the literal has no [body] member. *)
Definition fetchOptions (request : Request.t) (manualMode : bool)
  : RequestInit.t :=
  RequestInit.mk (Request.method request)
                 [("User-Agent", userAgent)]
                 (if manualMode then manual else follow)
                 None.

(** Lines 46-48. *)
Definition exposedHeaders (response : Response.t) : Headers.t :=
  Headers.set "Access-Control-Expose-Headers" "X-Final-Url, Location"
    (Headers.set "Access-Control-Allow-Origin" "*"
       (Headers.copy (Response.headers response))).

(** Lines 50-58 and 65: the headers after the resolved URL is reported. *)
Definition finalHeaders (manualMode : bool) (targetUrl : string)
    (response : Response.t) : Headers.t :=
  let headers := exposedHeaders response in
  if manualMode then
    if ((300 <=? Response.status response)
        && (Response.status response <? 400))%Z then
      match Headers.get "Location" (Response.headers response) with
      | Some location =>
          if truthy location then Headers.set "X-Final-Url" location headers
          else headers
      | None => headers
      end
    else Headers.set "X-Final-Url" targetUrl headers
  else
    Headers.set "X-Final-Url"
      (if truthy (Response.url response) then Response.url response
       else targetUrl)
      headers.

(** Lines 14-71, the body of the outer [try]. *)
Definition attempt (host : Host) (request : Request.t) : Eff Response.t :=
  url <- lift (URL_new host (Request.url request)) ;;
  let targetUrl := candidateUrl url in
  if negb (Str.startsWith "http" targetUrl) then
    lift (Response_new host (Some (Text usage)) 400 errorHeaders)
  else
    let manualMode := isManualMode request url in
    let targetUrl := strippedUrl host targetUrl in
    response <- await_fetch host targetUrl (fetchOptions request manualMode) ;;
    lift (Response_new host (Response.body response)
            (Response.status response)
            (finalHeaders manualMode targetUrl response)).

(** Lines 73-78. *)
Definition onError (host : Host) (e : Error) : Eff Response.t :=
  lift (Response_new host (Some (Text ("Error: " ++ message e))) 500
          errorHeaders).

(** The handler, [async fetch(request, env, ctx)]. *)
Definition fetch (host : Host) (request : Request.t) : Eff Response.t :=
  if String.eqb (Request.method request) "OPTIONS" then
    lift (Response_new host None 200 preflightHeaders)
  else
    try_catch (attempt host request) (onError host).

End Worker.

(** ** The responses the worker builds itself

    What the three [new Response(...)] expressions with literal arguments
    evaluate to (lines 4-10, 18-21 and 74-77), and the condition under which
    the constructor accepts what the network returned (lines 60 and 67). *)

Module Outcome.

Definition preflight : Response.t :=
  Response.mk 200 Worker.preflightHeaders None "".

Definition invalidTarget : Response.t :=
  Response.mk 400
    [ ("Access-Control-Allow-Origin", "*");
      ("content-type", "text/plain;charset=UTF-8") ]
    (Some (Text Worker.usage)) "".

Definition failure (e : Error) : Response.t :=
  Response.mk 500
    [ ("Access-Control-Allow-Origin", "*");
      ("content-type", "text/plain;charset=UTF-8") ]
    (Some (Text ("Error: " ++ message e))) "".

(** The test of line 51. *)
Definition is_redirect (response : Response.t) : bool :=
  ((300 <=? Response.status response)
   && (Response.status response <? 400))%Z.

(** The constructor accepts body [b] with status [s]. *)
Definition constructible (b : option Body) (s : Z) : Prop :=
  status_in_range s = true /\ (null_body_status s = true -> b = None).

(** A response of the network that the worker can pass on. *)
Definition relayable (response : Response.t) : Prop :=
  constructible (Response.body response) (Response.status response).

(** The response of lines 60-63 and 67-70 when the constructor accepts
    it, the response of the outer [catch] when it throws. *)
Definition relayed (host : Host) (manualMode : bool) (targetUrl : string)
    (response : Response.t) : Response.t :=
  match Response_new host (Response.body response) (Response.status response)
          (Worker.finalHeaders manualMode targetUrl response) with
  | Normal r => r
  | Throw e => failure e
  end.

(** The response after the call of [fetch] completed as [c]. *)
Definition settled (host : Host) (manualMode : bool) (targetUrl : string)
    (c : Completion Response.t) : Response.t :=
  match c with
  | Normal response => relayed host manualMode targetUrl response
  | Throw e => failure e
  end.

(** The exception [e] reaches the outer [catch]: it is thrown by line 14,
    by the call of [fetch] on line 44, or by the constructor on line 60
    or 67. *)
Inductive raised (host : Host) (request : Request.t) (e : Error) : Prop :=
| raised_parsing :
    URL_new host (Request.url request) = Throw e ->
    raised host request e
| raised_dispatching (url : URL) :
    URL_new host (Request.url request) = Normal url ->
    Str.startsWith "http" (Worker.candidateUrl url) = true ->
    global_fetch host
      (Worker.strippedUrl host (Worker.candidateUrl url))
      (Worker.fetchOptions request (Worker.isManualMode request url))
    = Throw e ->
    raised host request e
| raised_composing (url : URL) (response : Response.t) :
    URL_new host (Request.url request) = Normal url ->
    Str.startsWith "http" (Worker.candidateUrl url) = true ->
    global_fetch host
      (Worker.strippedUrl host (Worker.candidateUrl url))
      (Worker.fetchOptions request (Worker.isManualMode request url))
    = Normal response ->
    Response_new host (Response.body response) (Response.status response)
      (Worker.finalHeaders (Worker.isManualMode request url)
         (Worker.strippedUrl host (Worker.candidateUrl url)) response)
    = Throw e ->
    raised host request e.

End Outcome.

(** ** A reference host for concrete runs

    [Reference.parse] reads the absolute URLs of the form
    [scheme://authority/path?query#fragment] that need no normalisation, which
    is all the concrete runs below feed it, and throws on text without
    [scheme://authority].  [Reference.edge] validates the input of [fetch] with
    the same parser, as a runtime does, before asking the network [net].
    [Reference.workerd] is the same host with the two messages of the workerd
    runtime: [new URL] throws [Invalid URL string.], and [fetch] throws
    [Invalid URL: ] followed by its input. *)

Module Reference.

Definition invalidUrl : Error := mkError "Invalid URL".

Definition alpha (c : ascii) : bool :=
  let n := nat_of_ascii c in
  ((65 <=? n)%nat && (n <=? 90)%nat) || ((97 <=? n)%nat && (n <=? 122)%nat).

(** The scheme and what follows [://]. *)
Fixpoint split_scheme (s : string) : option (string * string) :=
  match s with
  | EmptyString => None
  | String c r =>
      if String.prefix "://" s then Some ("", Str.slice1 (Str.slice1 r))
      else if alpha c then
        match split_scheme r with
        | Some (a, b) => Some (String c a, b)
        | None => None
        end
      else None
  end.

Definition parse (s : string) : Completion URL :=
  let (s1, frag) := Str.cut "#" s in
  let (s2, q) := Str.cut "?" s1 in
  match split_scheme s2 with
  | Some (String c scheme, rest) =>
      match Str.cut "/" rest with
      | (EmptyString, _) => Throw invalidUrl
      | (authority, p) =>
          Normal (mkURL (String c scheme ++ "://" ++ authority)
                        ("/" ++ match p with Some x => x | None => "" end)
                        q frag)
      end
  | _ => Throw invalidUrl
  end.

Definition rangeError : Error :=
  mkError "Responses may only be constructed with status codes in the range 200 to 599, inclusive.".

Definition nullBodyError : Error :=
  mkError "Response with null body status cannot have body".

Definition edge (net : string -> RequestInit.t -> Completion Response.t)
  : Host :=
  mkHost parse
         (fun input init =>
            match parse input with
            | Normal _ => net input init
            | Throw e => Throw e
            end)
         rangeError nullBodyError.




(** A network on which every site answers [answer]. *)
Definition always (answer : Response.t)
  : string -> RequestInit.t -> Completion Response.t :=
  fun _ _ => Normal answer.

Definition ok200 : Response.t :=
  Response.mk 200 [("content-type", "text/html")] (Some (Stream "<html>"))
              "https://example.com/page/".

Definition found302 (location : string) : Response.t :=
  Response.mk 302 [("location", location)] None "".

Definition bare302 : Response.t := Response.mk 302 [] None "".

Definition get (url : string) (headers : Headers.t) : Request.t :=
  Request.mk "GET" url headers None.

Definition manualHeader : Headers.t := [("X-Proxy-Manual-Redirect", "true")].

End Reference.

(** * Properties *)

(** ** Header lists *)

Section HeaderLists.

Import Headers.

Lemma same_name_refl (n : string) : same_name n n = true.
Proof. apply String.eqb_refl. Qed.

Lemma same_name_left (n m k : string) :
  same_name n k = true -> same_name m k = same_name n m.
Proof.
  unfold same_name. intros H. apply String.eqb_eq in H. rewrite <- H.
  apply String.eqb_sym.
Qed.

Lemma filter_named_remove (n : string) (h : t) :
  filter (named n) (remove n h) = [].
Proof.
  unfold remove. induction h as [|p h IH]; simpl; [reflexivity|].
  destruct (named n p) eqn:E; simpl; [exact IH|].
  rewrite E. exact IH.
Qed.

Lemma filter_named_remove_other (n m : string) (h : t) :
  same_name n m = false ->
  filter (named m) (remove n h) = filter (named m) h.
Proof.
  intros D. unfold remove. induction h as [|p h IH]; simpl; [reflexivity|].
  destruct (named n p) eqn:E; simpl.
  - unfold named in *. rewrite (same_name_left n m _ E), D. exact IH.
  - rewrite IH. reflexivity.
Qed.

(** After [set n v] exactly one header is named [n], and it holds [v]. *)
Lemma filter_named_set (n v : string) (h : t) :
  exists k, filter (named n) (set n v h) = [(k, v)].
Proof.
  induction h as [|[k w] h IH]; simpl.
  - exists n. unfold named; simpl. rewrite same_name_refl. reflexivity.
  - destruct (same_name n k) eqn:E; simpl.
    + exists k. unfold named at 1; simpl. rewrite E.
      rewrite filter_named_remove. reflexivity.
    + unfold named at 1; simpl. rewrite E. exact IH.
Qed.

Lemma filter_named_set_other (n m v : string) (h : t) :
  same_name n m = false ->
  filter (named m) (set n v h) = filter (named m) h.
Proof.
  intros D. induction h as [|[k w] h IH]; simpl.
  - unfold named; simpl. unfold same_name in *.
    rewrite String.eqb_sym, D. reflexivity.
  - destruct (same_name n k) eqn:E; simpl.
    + assert (F : forall x, named m (k, x) = false)
        by (intros x; unfold named; simpl;
            rewrite (same_name_left n m k E); exact D).
      rewrite !F. apply filter_named_remove_other, D.
    + rewrite IH. reflexivity.
Qed.

(** [h.set(n, v); h.get(n)] is [v], whatever [h] held under that name. *)
Lemma get_set (n v : string) (h : t) : get n (set n v h) = Some v.
Proof.
  unfold get. destruct (filter_named_set n v h) as [k ->]. reflexivity.
Qed.

(** [set] leaves the headers of every other name alone. *)
Lemma get_set_other (n m v : string) (h : t) :
  same_name n m = false -> get m (set n v h) = get m h.
Proof.
  intros D. unfold get. rewrite filter_named_set_other by exact D.
  reflexivity.
Qed.

Lemma get_app_other (m k v : string) (h : t) :
  same_name m k = false -> get m (h ++ [(k, v)]) = get m h.
Proof.
  intros D. unfold get. rewrite filter_app. simpl.
  unfold named at 2; simpl. rewrite D, app_nil_r. reflexivity.
Qed.

End HeaderLists.

(** ** The [Response] constructor *)

Lemma Response_new_accepts (host : Host) (b : option Body) (s : Z)
    (h : Headers.t) :
  Outcome.constructible b s ->
  Response_new host b s h =
  Normal (Response.mk s
            (match b with Some x => with_content_type x h | None => h end)
            b "").
Proof.
  intros [R N]. unfold Response_new. rewrite R. simpl.
  destruct b as [x|]; [|reflexivity].
  destruct (null_body_status s); [discriminate (N eq_refl)|reflexivity].
Qed.

Lemma Response_new_rejects (host : Host) (b : option Body) (s : Z)
    (h : Headers.t) :
  ~ Outcome.constructible b s ->
  Response_new host b s h = Throw (status_range_error host) \/
  Response_new host b s h = Throw (null_body_error host).
Proof.
  intros C. unfold Response_new.
  destruct (status_in_range s) eqn:R; simpl; [|left; reflexivity].
  destruct b as [x|].
  - destruct (null_body_status s) eqn:N; [right; reflexivity|].
    exfalso. apply C. split; [exact R|]. intros F. rewrite N in F. discriminate.
  - exfalso. apply C. split; [exact R|reflexivity].
Qed.

Lemma get_with_content_type (n : string) (x : Body) (h : Headers.t) :
  Headers.same_name n "content-type" = false ->
  Headers.get n (with_content_type x h) = Headers.get n h.
Proof.
  intros D. destruct x; simpl; [|reflexivity].
  destruct (Headers.has "Content-Type" h); [reflexivity|].
  apply get_app_other, D.
Qed.

(** What a constructed response holds: the status and body it was given and,
    under every name but [Content-Type], the headers it was given. *)
Lemma Response_new_inv (host : Host) (b : option Body) (s : Z)
    (h : Headers.t) (r : Response.t) :
  Response_new host b s h = Normal r ->
  Response.status r = s /\ Response.body r = b /\
  forall n, Headers.same_name n "content-type" = false ->
            Headers.get n (Response.headers r) = Headers.get n h.
Proof.
  unfold Response_new. destruct (negb (status_in_range s)); [discriminate|].
  destruct b as [x|].
  - destruct (null_body_status s); [discriminate|].
    intros E. injection E as <-. simpl. repeat split.
    intros n D. apply get_with_content_type, D.
  - intros E. injection E as <-. simpl. repeat split.
Qed.

(** ** The shape of a run *)

Section Runs.

Variable host : Host.
Variable request : Request.t.

Lemma onError_failure (e : Error) :
  Worker.onError host e = ([], Normal (Outcome.failure e)).
Proof. reflexivity. Qed.

(** [OPTIONS] is answered before anything else is looked at. *)
Lemma fetch_preflight :
  Request.method request = "OPTIONS" ->
  Worker.fetch host request = ([], Normal Outcome.preflight).
Proof. intros M. unfold Worker.fetch. rewrite M. reflexivity. Qed.

Hypothesis not_options : Request.method request <> "OPTIONS".

Lemma fetch_guarded :
  Worker.fetch host request =
  try_catch (Worker.attempt host request) (Worker.onError host).
Proof.
  unfold Worker.fetch.
  destruct (String.eqb_spec (Request.method request) "OPTIONS") as [E|_];
    [contradiction|reflexivity].
Qed.

(** The request's own URL does not parse: line 14 throws. *)
Lemma fetch_unparsed (e : Error) :
  URL_new host (Request.url request) = Throw e ->
  Worker.fetch host request = ([], Normal (Outcome.failure e)).
Proof.
  intros P. rewrite fetch_guarded. unfold Worker.attempt. rewrite P.
  reflexivity.
Qed.

Variable url : URL.
Hypothesis parsed : URL_new host (Request.url request) = Normal url.

(** The guard of line 17 fires. *)
Lemma fetch_rejected :
  Str.startsWith "http" (Worker.candidateUrl url) = false ->
  Worker.fetch host request = ([], Normal Outcome.invalidTarget).
Proof.
  intros G. rewrite fetch_guarded. unfold Worker.attempt. rewrite parsed.
  simpl. rewrite G. reflexivity.
Qed.

(** The guard passes: exactly one call of [fetch] is made, and the
    response is settled from its completion. *)
Lemma fetch_dispatched :
  Str.startsWith "http" (Worker.candidateUrl url) = true ->
  let manualMode := Worker.isManualMode request url in
  let targetUrl := Worker.strippedUrl host (Worker.candidateUrl url) in
  let init := Worker.fetchOptions request manualMode in
  Worker.fetch host request =
  ([(targetUrl, init)],
   Normal (Outcome.settled host manualMode targetUrl
             (global_fetch host targetUrl init))).
Proof.
  intros G manualMode targetUrl init. rewrite fetch_guarded.
  unfold Worker.attempt. rewrite parsed. simpl. rewrite G. simpl.
  fold manualMode targetUrl init.
  destruct (global_fetch host targetUrl init) as [response|e]; simpl;
    [|reflexivity].
  unfold Outcome.relayed.
  destruct (Response_new host (Response.body response)
              (Response.status response)
              (Worker.finalHeaders manualMode targetUrl response));
    reflexivity.
Qed.

Lemma dispatch_shape :
  Str.startsWith "http" (Worker.candidateUrl url) = true ->
  calls (Worker.fetch host request) =
  [ (Worker.strippedUrl host (Worker.candidateUrl url),
     Worker.fetchOptions request (Worker.isManualMode request url)) ].
Proof. intros G. rewrite (fetch_dispatched G). reflexivity. Qed.

End Runs.

(** ** What the composed headers hold *)

Section ComposedHeaders.

Variables (targetUrl : string) (response : Response.t).

Lemma exposedHeaders_cors :
  Headers.get "Access-Control-Allow-Origin" (Worker.exposedHeaders response)
  = Some "*".
Proof.
  unfold Worker.exposedHeaders.
  rewrite get_set_other by reflexivity. apply get_set.
Qed.

(** Lines 46-48 never touch the resolved-URL header. *)
Lemma exposedHeaders_final :
  Headers.get "X-Final-Url" (Worker.exposedHeaders response)
  = Headers.get "X-Final-Url" (Response.headers response).
Proof.
  unfold Worker.exposedHeaders, Headers.copy.
  rewrite !get_set_other by reflexivity. reflexivity.
Qed.

Lemma finalHeaders_cors (manualMode : bool) :
  Headers.get "Access-Control-Allow-Origin"
    (Worker.finalHeaders manualMode targetUrl response) = Some "*".
Proof.
  unfold Worker.finalHeaders.
  repeat match goal with
         | |- context [if ?b then _ else _] => destruct b
         | |- context [match ?o with Some _ => _ | None => _ end] =>
             destruct o
         end;
    rewrite ?get_set_other by reflexivity; apply exposedHeaders_cors.
Qed.

Lemma finalHeaders_follow :
  Headers.get "X-Final-Url" (Worker.finalHeaders false targetUrl response)
  = Some (if Worker.truthy (Response.url response)
          then Response.url response else targetUrl).
Proof. unfold Worker.finalHeaders. apply get_set. Qed.

Lemma finalHeaders_manual_direct :
  Outcome.is_redirect response = false ->
  Headers.get "X-Final-Url" (Worker.finalHeaders true targetUrl response)
  = Some targetUrl.
Proof.
  unfold Outcome.is_redirect, Worker.finalHeaders. intros ->. apply get_set.
Qed.

Lemma finalHeaders_manual_location (location : string) :
  Outcome.is_redirect response = true ->
  Headers.get "Location" (Response.headers response) = Some location ->
  Worker.truthy location = true ->
  Headers.get "X-Final-Url" (Worker.finalHeaders true targetUrl response)
  = Some location.
Proof.
  unfold Outcome.is_redirect, Worker.finalHeaders. intros -> -> ->. apply get_set.
Qed.

(** A redirect whose [Location] is missing or empty: no branch of lines
    51-58 sets the header, which stays as the network sent it. *)
Lemma finalHeaders_manual_unreported :
  Outcome.is_redirect response = true ->
  match Headers.get "Location" (Response.headers response) with
  | Some location => Worker.truthy location = false
  | None => True
  end ->
  Headers.get "X-Final-Url" (Worker.finalHeaders true targetUrl response)
  = Headers.get "X-Final-Url" (Response.headers response).
Proof.
  unfold Outcome.is_redirect, Worker.finalHeaders. intros ->.
  destruct (Headers.get "Location" (Response.headers response)) as [l|].
  - intros ->. apply exposedHeaders_final.
  - intros _. apply exposedHeaders_final.
Qed.

End ComposedHeaders.

(** ** Preflight *)

(** C8.  An [OPTIONS] request, whatever its URL, headers and body, makes no
    call of the global [fetch] and is answered with a null body, status 200
    and the three CORS headers (allow-origin, allow-methods,
    allow-headers). *)
Theorem options_preflight (host : Host) (request : Request.t) :
  Request.method request = "OPTIONS" ->
  exists r,
    Worker.fetch host request = ([], Normal r) /\
    Response.body r = None /\
    Response.status r = 200%Z /\
    Headers.get "Access-Control-Allow-Origin" (Response.headers r)
      = Some "*" /\
    Headers.get "Access-Control-Allow-Methods" (Response.headers r)
      = Some "GET, HEAD, POST, OPTIONS" /\
    Headers.get "Access-Control-Allow-Headers" (Response.headers r)
      = Some "Content-Type, X-Final-Url, X-Proxy-Manual-Redirect".
Proof.
  intros M. exists Outcome.preflight. split.
  - apply fetch_preflight, M.
  - repeat split.
Qed.

Lemma options_preflight_witness :
  exists r,
    Worker.fetch (Reference.edge (Reference.always Reference.ok200))
      (Request.mk "OPTIONS" "https://proxy.example/not-a-url"
         [("Origin", "https://app.example")] None)
    = ([], Normal r) /\
    Response.body r = None /\
    Response.status r = 200%Z /\
    Headers.get "Access-Control-Allow-Origin" (Response.headers r)
      = Some "*" /\
    Headers.get "Access-Control-Allow-Methods" (Response.headers r)
      = Some "GET, HEAD, POST, OPTIONS" /\
    Headers.get "Access-Control-Allow-Headers" (Response.headers r)
      = Some "Content-Type, X-Final-Url, X-Proxy-Manual-Redirect".
Proof. apply options_preflight. reflexivity. Defined.

(** ** Cross-origin access on every path *)

Lemma failure_cors (e : Error) :
  Headers.get "Access-Control-Allow-Origin"
    (Response.headers (Outcome.failure e)) = Some "*".
Proof. reflexivity. Qed.

Lemma relayed_cors (host : Host) (manualMode : bool) (targetUrl : string)
    (response : Response.t) :
  Headers.get "Access-Control-Allow-Origin"
    (Response.headers (Outcome.relayed host manualMode targetUrl response))
  = Some "*".
Proof.
  unfold Outcome.relayed.
  destruct (Response_new host (Response.body response)
              (Response.status response)
              (Worker.finalHeaders manualMode targetUrl response))
    as [r|e] eqn:E.
  - apply Response_new_inv in E. destruct E as (_ & _ & H).
    rewrite H by reflexivity. apply finalHeaders_cors.
  - apply failure_cors.
Qed.

(** C9.  The handler always completes with a response, and on every path
    (preflight, invalid target, relayed upstream response in either mode,
    failure) that response carries [Access-Control-Allow-Origin: *]. *)
Theorem cors_on_every_path (host : Host) (request : Request.t) :
  exists r,
    completion (Worker.fetch host request) = Normal r /\
    Headers.get "Access-Control-Allow-Origin" (Response.headers r) = Some "*".
Proof.
  destruct (String.eqb_spec (Request.method request) "OPTIONS") as [M|M].
  - rewrite (fetch_preflight host request M). eexists; split; reflexivity.
  - destruct (URL_new host (Request.url request)) as [url|e] eqn:P.
    + destruct (Str.startsWith "http" (Worker.candidateUrl url)) eqn:G.
      * rewrite (fetch_dispatched host request M url P G). simpl.
        eexists; split; [reflexivity|].
        unfold Outcome.settled.
        destruct (global_fetch host _ _);
          [apply relayed_cors|apply failure_cors].
      * rewrite (fetch_rejected host request M url P G).
        eexists; split; reflexivity.
    + rewrite (fetch_unparsed host request M e P).
      eexists; split; [reflexivity|apply failure_cors].
Qed.

(** ** The request sent upstream *)

(** C3, as the code has it.  For a request other than [OPTIONS] whose URL
    parses and whose target passes the guard, exactly one call of [fetch] is
    made: to the target, with the inbound method, the fixed Googlebot
    [User-Agent] as its only header, the redirect policy of the mode, and no
    body. *)
Theorem dispatch_request (host : Host) (request : Request.t) (url : URL) :
  Request.method request <> "OPTIONS" ->
  URL_new host (Request.url request) = Normal url ->
  Str.startsWith "http" (Worker.candidateUrl url) = true ->
  calls (Worker.fetch host request) =
  [ (Worker.strippedUrl host (Worker.candidateUrl url),
     RequestInit.mk (Request.method request)
       [("User-Agent",
         "Mozilla/5.0 (compatible; Googlebot/2.1; +http://www.google.com/bot.html)")]
       (if Worker.isManualMode request url then manual else follow)
       None) ].
Proof.
  intros M P G. rewrite (fetch_dispatched host request M url P G).
  reflexivity.
Qed.

Lemma dispatch_request_witness :
  let host := Reference.edge (Reference.always Reference.ok200) in
  let request :=
    Request.mk "POST" "https://proxy.example/https://example.com/submit?x=1"
      [("Content-Type", "text/plain")] (Some (Stream "payload")) in
  Request.method request <> "OPTIONS" /\
  calls (Worker.fetch host request) =
  [ ("https://example.com/submit?x=1",
     RequestInit.mk "POST"
       [("User-Agent",
         "Mozilla/5.0 (compatible; Googlebot/2.1; +http://www.google.com/bot.html)")]
       follow None) ].
Proof.
  intros host request.
  assert (M : Request.method request <> "OPTIONS") by discriminate.
  split; [exact M|].
  exact (dispatch_request host request
           (mkURL "https://proxy.example" "/https://example.com/submit"
                  (Some "x=1") None)
           M eq_refl eq_refl).
Defined.

(** C3 as stated fails: a [POST] with a body reaches the guard with a valid
    target, and the one call of [fetch] it causes carries no body. *)
Lemma inbound_body_not_forwarded :
  let host := Reference.edge (Reference.always Reference.ok200) in
  let request :=
    Request.mk "POST" "https://proxy.example/https://example.com/submit?x=1"
      [("Content-Type", "text/plain")] (Some (Stream "payload")) in
  Request.method request <> "OPTIONS" /\
  Request.body request = Some (Stream "payload") /\
  ~ (forall call, In call (calls (Worker.fetch host request)) ->
       RequestInit.method (snd call) = Request.method request /\
       Headers.get "User-Agent" (RequestInit.headers (snd call))
         = Some Worker.userAgent /\
       RequestInit.body (snd call) = Request.body request).
Proof.
  intros host request. split; [discriminate|]. split; [reflexivity|].
  intros H.
  destruct (H ("https://example.com/submit?x=1",
               Worker.fetchOptions request false)) as (_ & _ & B).
  - left. reflexivity.
  - discriminate B.
Qed.

(** C10.  Two requests other than [OPTIONS] with the same method, the same
    URL and the same [X-Proxy-Manual-Redirect] header cause the same calls of
    [fetch], however their other headers and their bodies differ; and every
    call carries the fixed [User-Agent] as its only header and no body. *)
Theorem dispatch_noninterference (host : Host) (r1 r2 : Request.t) :
  Request.method r1 <> "OPTIONS" ->
  Request.method r1 = Request.method r2 ->
  Request.url r1 = Request.url r2 ->
  Headers.get "X-Proxy-Manual-Redirect" (Request.headers r1)
    = Headers.get "X-Proxy-Manual-Redirect" (Request.headers r2) ->
  calls (Worker.fetch host r1) = calls (Worker.fetch host r2) /\
  forall call, In call (calls (Worker.fetch host r1)) ->
    RequestInit.headers (snd call) = [("User-Agent", Worker.userAgent)] /\
    RequestInit.body (snd call) = None.
Proof.
  intros M1 EM EU EH.
  assert (M2 : Request.method r2 <> "OPTIONS") by (rewrite <- EM; exact M1).
  destruct (URL_new host (Request.url r1)) as [url|e] eqn:P1.
  - assert (P2 : URL_new host (Request.url r2) = Normal url)
      by (rewrite <- EU; exact P1).
    destruct (Str.startsWith "http" (Worker.candidateUrl url)) eqn:G.
    + rewrite (fetch_dispatched host r1 M1 url P1 G),
              (fetch_dispatched host r2 M2 url P2 G).
      unfold calls, Worker.fetchOptions, Worker.isManualMode. simpl.
      rewrite EM, EH. split; [reflexivity|].
      intros call [<-|[]]. split; reflexivity.
    + rewrite (fetch_rejected host r1 M1 url P1 G),
              (fetch_rejected host r2 M2 url P2 G).
      split; [reflexivity|]. intros call [].
  - assert (P2 : URL_new host (Request.url r2) = Throw e)
      by (rewrite <- EU; exact P1).
    rewrite (fetch_unparsed host r1 M1 e P1), (fetch_unparsed host r2 M2 e P2).
    split; [reflexivity|]. intros call [].
Qed.

Lemma dispatch_noninterference_witness :
  let host := Reference.edge (Reference.always Reference.ok200) in
  let target := "https://proxy.example/https://example.com/account" in
  let r1 := Request.mk "POST" target
              [("Authorization", "Bearer s3cret"); ("Cookie", "sid=1")]
              (Some (Stream "first")) in
  let r2 := Request.mk "POST" target [("Accept", "*/*")] None in
  calls (Worker.fetch host r1) = calls (Worker.fetch host r2) /\
  forall call, In call (calls (Worker.fetch host r1)) ->
    RequestInit.headers (snd call) = [("User-Agent", Worker.userAgent)] /\
    RequestInit.body (snd call) = None.
Proof.
  intros host target r1 r2.
  apply (dispatch_noninterference host r1 r2);
    [discriminate | reflexivity | reflexivity | reflexivity].
Defined.

(** ** Invalid targets *)

(** C4, as the code has it.  For a request other than [OPTIONS] whose URL
    parses, when the raw path without its leading slash, followed by the
    query string, does not start with [http], the handler makes no call of
    [fetch] and answers status 400 with the plain-text usage hint and the
    allow-all header, whatever the method and the headers. *)
Theorem invalid_target_rejected (host : Host) (request : Request.t)
    (url : URL) :
  Request.method request <> "OPTIONS" ->
  URL_new host (Request.url request) = Normal url ->
  Str.startsWith "http" (Str.slice1 (pathname url) ++ Url.search url) = false ->
  exists r,
    Worker.fetch host request = ([], Normal r) /\
    Response.status r = 400%Z /\
    Response.body r = Some (Text "Invalid URL. Usage: /https://example.com") /\
    Headers.get "Content-Type" (Response.headers r)
      = Some "text/plain;charset=UTF-8" /\
    Headers.get "Access-Control-Allow-Origin" (Response.headers r) = Some "*".
Proof.
  intros M P G. exists Outcome.invalidTarget. split.
  - apply (fetch_rejected host request M url P G).
  - repeat split.
Qed.

Lemma invalid_target_rejected_witness :
  let host := Reference.edge (Reference.always Reference.ok200) in
  let request :=
    Request.mk "DELETE" "https://proxy.example/not-a-url?x=http://a"
      Reference.manualHeader None in
  exists r,
    Worker.fetch host request = ([], Normal r) /\
    Response.status r = 400%Z /\
    Response.body r = Some (Text "Invalid URL. Usage: /https://example.com") /\
    Headers.get "Content-Type" (Response.headers r)
      = Some "text/plain;charset=UTF-8" /\
    Headers.get "Access-Control-Allow-Origin" (Response.headers r) = Some "*".
Proof.
  intros host request.
  apply (invalid_target_rejected host request
           (mkURL "https://proxy.example" "/not-a-url" (Some "x=http://a") None));
    [discriminate | reflexivity | reflexivity].
Defined.

(** C4 as stated fails: the decoded path [httpfoo] starts with neither
    [http://] nor [https://], yet it passes the guard of line 17, [fetch] is
    called with it, and the answer is not 400 (the runtime refuses the text,
    so the outer [catch] answers 500). *)
Lemma loose_prefix_passes_guard :
  let host := Reference.edge (Reference.always Reference.ok200) in
  let request := Reference.get "https://proxy.example/httpfoo" [] in
  let decoded := FormUrlencoded.percent_decode (Str.slice1 "/httpfoo") in
  Request.method request <> "OPTIONS" /\
  URL_new host (Request.url request)
    = Normal (mkURL "https://proxy.example" "/httpfoo" None None) /\
  Str.startsWith "http://" decoded = false /\
  Str.startsWith "https://" decoded = false /\
  calls (Worker.fetch host request)
    = [("httpfoo", Worker.fetchOptions request false)] /\
  ~ (exists r, Worker.fetch host request = ([], Normal r) /\
               Response.status r = 400%Z).
Proof.
  intros host request decoded.
  split; [discriminate|]. repeat split.
  intros (r & E & _). discriminate E.
Qed.

(** ** Reporting the resolved URL *)

Lemma relayed_accepts (host : Host) (manualMode : bool) (targetUrl : string)
    (response : Response.t) :
  Outcome.relayable response ->
  Response_new host (Response.body response) (Response.status response)
    (Worker.finalHeaders manualMode targetUrl response)
  = Normal (Outcome.relayed host manualMode targetUrl response).
Proof.
  intros R. unfold Outcome.relayed.
  rewrite (Response_new_accepts host _ _ _ R). reflexivity.
Qed.

(** A relayable response goes back with its status, its body and the
    composed headers. *)
Lemma relayed_inv (host : Host) (manualMode : bool) (targetUrl : string)
    (response : Response.t) :
  Outcome.relayable response ->
  let r := Outcome.relayed host manualMode targetUrl response in
  Response.status r = Response.status response /\
  Response.body r = Response.body response /\
  forall n, Headers.same_name n "content-type" = false ->
    Headers.get n (Response.headers r)
    = Headers.get n (Worker.finalHeaders manualMode targetUrl response).
Proof.
  intros R r. apply (Response_new_inv host), relayed_accepts, R.
Qed.

(** What [fetch] resolves with has no body under a null body status, so the
    constructor accepts it as soon as its status is in range. *)
Lemma fetched_relayable (host : Host) (input : string) (init : RequestInit.t)
    (response : Response.t) :
  global_fetch host input init = Normal response ->
  status_in_range (Response.status response) = true ->
  Outcome.relayable response.
Proof.
  unfold global_fetch. intros F R.
  destruct (network host input init) as [r|e]; [|discriminate].
  injection F as <-. split; [exact R|]. simpl. intros ->.
  rewrite orb_true_r. reflexivity.
Qed.

Lemma redirect_in_range (response : Response.t) :
  Outcome.is_redirect response = true ->
  status_in_range (Response.status response) = true.
Proof.
  unfold Outcome.is_redirect, status_in_range. intros R.
  apply andb_true_iff in R. destruct R as [R1 R2].
  apply Z.leb_le in R1. apply Z.ltb_lt in R2.
  apply andb_true_iff. split; apply Z.leb_le; lia.
Qed.

Lemma in_range (s : Z) : (200 <= s <= 599)%Z -> status_in_range s = true.
Proof.
  intros [A B]. unfold status_in_range.
  apply andb_true_iff. split; apply Z.leb_le; assumption.
Qed.

(** C5, as the code has it.  In follow mode, when the call of [fetch]
    resolves with a response whose status lies between 200 and 599, the
    handler made that one call, with redirect policy [follow], and answers
    with the upstream status and body and with [X-Final-Url] equal to the URL
    the response reports, or to the target itself when the response reports
    none. *)
Theorem follow_reports_terminal_url (host : Host) (request : Request.t)
    (url : URL) (response : Response.t) :
  Request.method request <> "OPTIONS" ->
  URL_new host (Request.url request) = Normal url ->
  Str.startsWith "http" (Worker.candidateUrl url) = true ->
  Worker.isManualMode request url = false ->
  let T := Worker.strippedUrl host (Worker.candidateUrl url) in
  let init := Worker.fetchOptions request false in
  global_fetch host T init = Normal response ->
  (200 <= Response.status response <= 599)%Z ->
  exists r,
    Worker.fetch host request = ([(T, init)], Normal r) /\
    RequestInit.redirect init = follow /\
    Response.status r = Response.status response /\
    Response.body r = Response.body response /\
    (Response.url response <> "" ->
     Headers.get "X-Final-Url" (Response.headers r)
       = Some (Response.url response)) /\
    (Response.url response = "" ->
     Headers.get "X-Final-Url" (Response.headers r) = Some T).
Proof.
  intros M P G F T init N S.
  pose proof (fetched_relayable host T init response N (in_range _ S)) as R.
  exists (Outcome.relayed host false T response).
  destruct (relayed_inv host false T response R) as (ES & EB & H).
  split.
  - rewrite (fetch_dispatched host request M url P G), F.
    fold T init. rewrite N. reflexivity.
  - split; [reflexivity|]. split; [exact ES|]. split; [exact EB|].
    rewrite H by reflexivity. rewrite finalHeaders_follow.
    split; intros U.
    + destruct (Response.url response); [contradiction|reflexivity].
    + rewrite U. reflexivity.
Qed.

Lemma follow_reports_terminal_url_witness :
  let host := Reference.edge (Reference.always Reference.ok200) in
  let request := Reference.get "https://proxy.example/https://example.com/page" [] in
  let T := "https://example.com/page" in
  exists r,
    Worker.fetch host request = ([(T, Worker.fetchOptions request false)], Normal r) /\
    RequestInit.redirect (Worker.fetchOptions request false) = follow /\
    Response.status r = 200%Z /\
    Response.body r = Some (Stream "<html>") /\
    ("https://example.com/page/" <> "" ->
     Headers.get "X-Final-Url" (Response.headers r)
       = Some "https://example.com/page/") /\
    ("https://example.com/page/" = "" ->
     Headers.get "X-Final-Url" (Response.headers r) = Some T).
Proof.
  intros host request T.
  apply (follow_reports_terminal_url host request
           (mkURL "https://proxy.example" "/https://example.com/page" None None)
           Reference.ok200);
    [discriminate | reflexivity | reflexivity | reflexivity | reflexivity
    | simpl; lia].
Defined.

(** C5 as stated fails: in follow mode the call of [fetch] resolves, after
    the redirects, with status 999 and a terminal URL; the constructor of
    line 67 refuses the status, the outer [catch] answers 500, and that
    response reports no [X-Final-Url]. *)
Lemma unrelayable_status_not_reported :
  let upstream :=
    Response.mk 999 [] (Some (Stream "denied"))
                "https://example.com/profile/" in
  let host := Reference.edge (Reference.always upstream) in
  let request :=
    Reference.get "https://proxy.example/https://example.com/profile" [] in
  let T := "https://example.com/profile" in
  Request.method request <> "OPTIONS" /\
  calls (Worker.fetch host request)
    = [(T, Worker.fetchOptions request false)] /\
  RequestInit.redirect (Worker.fetchOptions request false) = follow /\
  global_fetch host T (Worker.fetchOptions request false) = Normal upstream /\
  ~ (exists r,
       completion (Worker.fetch host request) = Normal r /\
       Headers.get "X-Final-Url" (Response.headers r)
         = Some "https://example.com/profile/") /\
  exists r,
    completion (Worker.fetch host request) = Normal r /\
    Response.status r = 500%Z /\
    Headers.get "X-Final-Url" (Response.headers r) = None.
Proof.
  intros upstream host request T.
  split; [discriminate|]. repeat split.
  - intros (r & E & H). injection E as <-. discriminate H.
  - eexists. repeat split.
Qed.

(** In manual mode a response that is not a redirect is reported under the
    target itself. *)
Lemma manual_direct_reports_target (host : Host) (request : Request.t)
    (url : URL) (response : Response.t) :
  Request.method request <> "OPTIONS" ->
  URL_new host (Request.url request) = Normal url ->
  Str.startsWith "http" (Worker.candidateUrl url) = true ->
  Worker.isManualMode request url = true ->
  let T := Worker.strippedUrl host (Worker.candidateUrl url) in
  let init := Worker.fetchOptions request true in
  global_fetch host T init = Normal response ->
  (200 <= Response.status response <= 599)%Z ->
  ~ (300 <= Response.status response < 400)%Z ->
  exists r,
    Worker.fetch host request = ([(T, init)], Normal r) /\
    Response.status r = Response.status response /\
    Response.body r = Response.body response /\
    Headers.get "X-Final-Url" (Response.headers r) = Some T.
Proof.
  intros M P G F T init N S D.
  pose proof (fetched_relayable host T init response N (in_range _ S)) as R.
  exists (Outcome.relayed host true T response).
  destruct (relayed_inv host true T response R) as (ES & EB & H). split.
  - rewrite (fetch_dispatched host request M url P G), F.
    fold T init. rewrite N. reflexivity.
  - split; [exact ES|]. split; [exact EB|].
    rewrite H by reflexivity. apply finalHeaders_manual_direct.
    unfold Outcome.is_redirect. apply andb_false_iff.
    destruct (Z.leb_spec 300 (Response.status response));
      [right; apply Z.ltb_ge; lia|left; reflexivity].
Qed.

(** In manual mode a redirect whose [Location] is missing or empty goes back
    with whatever [X-Final-Url] the upstream response had: the worker sets
    none. *)
Lemma manual_redirect_unreported (host : Host) (request : Request.t)
    (url : URL) (response : Response.t) :
  Request.method request <> "OPTIONS" ->
  URL_new host (Request.url request) = Normal url ->
  Str.startsWith "http" (Worker.candidateUrl url) = true ->
  Worker.isManualMode request url = true ->
  let T := Worker.strippedUrl host (Worker.candidateUrl url) in
  let init := Worker.fetchOptions request true in
  global_fetch host T init = Normal response ->
  (300 <= Response.status response < 400)%Z ->
  Headers.get "Location" (Response.headers response) = None \/
  Headers.get "Location" (Response.headers response) = Some "" ->
  exists r,
    Worker.fetch host request = ([(T, init)], Normal r) /\
    Response.status r = Response.status response /\
    Headers.get "X-Final-Url" (Response.headers r)
    = Headers.get "X-Final-Url" (Response.headers response).
Proof.
  intros M P G F T init N S L.
  assert (D : Outcome.is_redirect response = true).
  { unfold Outcome.is_redirect. apply andb_true_iff.
    split; [apply Z.leb_le|apply Z.ltb_lt]; lia. }
  pose proof (fetched_relayable host T init response N
                (redirect_in_range response D)) as R.
  exists (Outcome.relayed host true T response).
  destruct (relayed_inv host true T response R) as (ES & _ & H). split.
  - rewrite (fetch_dispatched host request M url P G), F.
    fold T init. rewrite N. reflexivity.
  - split; [exact ES|]. rewrite H by reflexivity.
    apply finalHeaders_manual_unreported; [exact D|].
    destruct L as [-> | ->]; [exact I|reflexivity].
Qed.

(** C2 at its failing input.  Manual mode is asked for by the header, the
    target is [https://example.com/moved], and the upstream answers 302
    without a [Location]: the handler relays the 302 and the response has no
    [X-Final-Url] at all, where the specification wants it equal to the
    target, as line 57 and line 65 make it in the neighbouring cases. *)
Theorem manual_bare_redirect_has_no_final_url :
  let host := Reference.edge (Reference.always Reference.bare302) in
  let request :=
    Reference.get "https://proxy.example/https://example.com/moved"
      Reference.manualHeader in
  exists r,
    Worker.fetch host request
    = ([("https://example.com/moved", Worker.fetchOptions request true)],
       Normal r) /\
    RequestInit.redirect (Worker.fetchOptions request true) = manual /\
    Response.status r = 302%Z /\
    Headers.get "Location" (Response.headers Reference.bare302) = None /\
    Headers.get "X-Final-Url" (Response.headers r) = None /\
    Headers.get "X-Final-Url" (Response.headers r)
      <> Some "https://example.com/moved".
Proof.
  intros host request. eexists. split; [reflexivity|].
  repeat split. discriminate.
Qed.

(** C6, as the code has it.  In manual mode, when the upstream response is a
    3xx whose [Location] header has a non-empty value [L], the handler made
    one call with redirect policy [manual] and answers with the same status,
    the same body and [X-Final-Url] equal to [L]. *)
Theorem manual_redirect_reports_location (host : Host) (request : Request.t)
    (url : URL) (response : Response.t) (L : string) :
  Request.method request <> "OPTIONS" ->
  URL_new host (Request.url request) = Normal url ->
  Str.startsWith "http" (Worker.candidateUrl url) = true ->
  Worker.isManualMode request url = true ->
  let T := Worker.strippedUrl host (Worker.candidateUrl url) in
  let init := Worker.fetchOptions request true in
  global_fetch host T init = Normal response ->
  (300 <= Response.status response < 400)%Z ->
  Headers.get "Location" (Response.headers response) = Some L ->
  L <> "" ->
  exists r,
    Worker.fetch host request = ([(T, init)], Normal r) /\
    RequestInit.redirect init = manual /\
    Response.status r = Response.status response /\
    Response.body r = Response.body response /\
    Headers.get "X-Final-Url" (Response.headers r) = Some L.
Proof.
  intros M P G F T init N S HL NE.
  assert (D : Outcome.is_redirect response = true).
  { unfold Outcome.is_redirect. apply andb_true_iff.
    split; [apply Z.leb_le|apply Z.ltb_lt]; lia. }
  pose proof (fetched_relayable host T init response N
                (redirect_in_range response D)) as R.
  exists (Outcome.relayed host true T response).
  destruct (relayed_inv host true T response R) as (ES & EB & H). split.
  - rewrite (fetch_dispatched host request M url P G), F.
    fold T init. rewrite N. reflexivity.
  - split; [reflexivity|]. split; [exact ES|]. split; [exact EB|].
    rewrite H by reflexivity.
    apply finalHeaders_manual_location; [exact D|exact HL|].
    destruct L; [contradiction|reflexivity].
Qed.

Lemma manual_redirect_reports_location_witness :
  let upstream := Reference.found302 "https://example.com/final" in
  let host := Reference.edge (Reference.always upstream) in
  let request :=
    Reference.get
      "https://proxy.example/https://example.com/redirect?to=/final&__proxy_redirect_mode=manual"
      [] in
  let T := "https://example.com/redirect?to=%2Ffinal" in
  exists r,
    Worker.fetch host request
      = ([(T, Worker.fetchOptions request true)], Normal r) /\
    RequestInit.redirect (Worker.fetchOptions request true) = manual /\
    Response.status r = 302%Z /\
    Response.body r = None /\
    Headers.get "X-Final-Url" (Response.headers r)
      = Some "https://example.com/final".
Proof.
  intros upstream host request T.
  apply (manual_redirect_reports_location host request
           (mkURL "https://proxy.example" "/https://example.com/redirect"
                  (Some "to=/final&__proxy_redirect_mode=manual") None)
           upstream "https://example.com/final");
    [discriminate | reflexivity | reflexivity | reflexivity | reflexivity
    | simpl; lia | reflexivity | discriminate].
Defined.

(** C6 as stated fails: the upstream answers 302 with a [Location] header
    whose value is empty; the test of line 53 treats it as absent and the
    response goes back without [X-Final-Url]. *)
Lemma empty_location_not_reported :
  let upstream := Reference.found302 "" in
  let host := Reference.edge (Reference.always upstream) in
  let request :=
    Reference.get "https://proxy.example/https://example.com/moved"
      Reference.manualHeader in
  Request.method request <> "OPTIONS" /\
  Worker.isManualMode request
    (mkURL "https://proxy.example" "/https://example.com/moved" None None)
    = true /\
  global_fetch host "https://example.com/moved"
    (Worker.fetchOptions request true) = Normal upstream /\
  Response.status upstream = 302%Z /\
  Headers.get "Location" (Response.headers upstream) = Some "" /\
  ~ (exists r,
       completion (Worker.fetch host request) = Normal r /\
       Headers.get "X-Final-Url" (Response.headers r) = Some "").
Proof.
  intros upstream host request.
  split; [discriminate|]. repeat split.
  intros (r & E & H). injection E as <-. discriminate H.
Qed.

(** ** Failures *)



(** The outer [try] throws exactly when one of its three throwing steps
    does; the stripping step is not among them. *)
Lemma attempt_throws_iff (host : Host) (request : Request.t) (e : Error) :
  completion (Worker.attempt host request) = Throw e <->
  Outcome.raised host request e.
Proof.
  unfold Worker.attempt. split.
  - destruct (URL_new host (Request.url request)) as [url|e0] eqn:P; simpl.
    + destruct (Str.startsWith "http" (Worker.candidateUrl url)) eqn:G; simpl;
        [|discriminate].
      destruct (global_fetch host _ _) as [response|e1] eqn:N; simpl.
      * intros C. eapply Outcome.raised_composing; eassumption.
      * intros C. injection C as <-.
        eapply Outcome.raised_dispatching; eassumption.
    + intros C. injection C as <-. apply Outcome.raised_parsing, P.
  - intros [P|url P G N|url response P G N C]; rewrite P; simpl.
    + reflexivity.
    + rewrite G. simpl. rewrite N. reflexivity.
    + rewrite G. simpl. rewrite N. simpl. exact C.
Qed.




(** ** The query format round-trips *)

Section FormRoundTrip.

Import FormUrlencoded.

Ltac by_bytes c := destruct c as [[] [] [] [] [] [] [] []]; reflexivity.

Lemma decode_encode_byte (c : ascii) (s : string) :
  decode (encode_byte c ++ s) = String c (decode s).
Proof. by_bytes c. Qed.

Lemma decode_encode (s : string) : decode (encode s) = s.
Proof.
  induction s as [|c s IH]; simpl; [reflexivity|].
  rewrite decode_encode_byte, IH. reflexivity.
Qed.

Lemma mem_app (sep : ascii) (a b : string) :
  Str.mem sep (a ++ b) = Str.mem sep a || Str.mem sep b.
Proof.
  induction a as [|c a IH]; simpl; [reflexivity|].
  rewrite IH. apply orb_assoc.
Qed.

Lemma mem_cons (sep c : ascii) (s : string) :
  Str.mem sep (String c s) = Ascii.eqb c sep || Str.mem sep s.
Proof. reflexivity. Qed.

(** The four delimiters of URL text never come out of the encoder. *)
Lemma mem_encode_byte (sep c : ascii) :
  Url.delimiter sep -> Str.mem sep (encode_byte c) = false.
Proof. intros [->|[->|[->| ->]]]; by_bytes c. Qed.

Lemma mem_encode (sep : ascii) (s : string) :
  Url.delimiter sep -> Str.mem sep (encode s) = false.
Proof.
  intros D. induction s as [|c s IH]; simpl; [reflexivity|].
  rewrite mem_app, IH, (mem_encode_byte sep c D). reflexivity.
Qed.

Lemma cut_at (sep : ascii) (a b : string) :
  Str.mem sep a = false -> Str.cut sep (a ++ String sep b) = (a, Some b).
Proof.
  induction a as [|c a IH]; simpl.
  - intros _. rewrite Ascii.eqb_refl. reflexivity.
  - intros M. apply orb_false_iff in M. destruct M as [E M].
    rewrite E, (IH M). reflexivity.
Qed.

Lemma cut_none (sep : ascii) (a : string) :
  Str.mem sep a = false -> Str.cut sep a = (a, None).
Proof.
  induction a as [|c a IH]; simpl; [reflexivity|].
  intros M. apply orb_false_iff in M. destruct M as [E M].
  rewrite E, (IH M). reflexivity.
Qed.

Lemma split_on_at (sep : ascii) (a b : string) :
  Str.mem sep a = false ->
  Str.split_on sep (a ++ String sep b) = a :: Str.split_on sep b.
Proof.
  induction a as [|c a IH]; simpl.
  - intros _. rewrite Ascii.eqb_refl. reflexivity.
  - intros M. apply orb_false_iff in M. destruct M as [E M].
    rewrite E, (IH M). reflexivity.
Qed.

Lemma split_on_none (sep : ascii) (a : string) :
  Str.mem sep a = false -> Str.split_on sep a = [a].
Proof.
  induction a as [|c a IH]; simpl; [reflexivity|].
  intros M. apply orb_false_iff in M. destruct M as [E M].
  rewrite E, (IH M). reflexivity.
Qed.

Lemma parse_serialize_pair (p : string * string) :
  parse_pair (serialize_pair p) = p.
Proof.
  destruct p as [n v]. unfold parse_pair, serialize_pair. simpl.
  rewrite cut_at by (apply mem_encode; right; left; reflexivity).
  rewrite !decode_encode. reflexivity.
Qed.

Lemma serialize_pair_nonempty (p : string * string) :
  nonempty (serialize_pair p) = true.
Proof.
  unfold serialize_pair. destruct (encode (fst p)); reflexivity.
Qed.

Lemma mem_serialize_pair (sep : ascii) (p : string * string) :
  Url.delimiter sep -> sep <> "="%char ->
  Str.mem sep (serialize_pair p) = false.
Proof.
  intros D N. unfold serialize_pair.
  change ("=" ++ encode (snd p))%string with (String "=" (encode (snd p))).
  rewrite mem_app, mem_cons, !(mem_encode sep _ D).
  destruct (Ascii.eqb_spec "="%char sep) as [E|_];
    [symmetry in E; contradiction|reflexivity].
Qed.

Lemma mem_serialize (sep : ascii) (l : list (string * string)) :
  Url.delimiter sep -> sep <> "="%char -> sep <> "&"%char ->
  Str.mem sep (serialize l) = false.
Proof.
  intros D N1 N2. unfold serialize.
  induction l as [|p l IH]; [reflexivity|].
  destruct l as [|q l].
  - apply mem_serialize_pair; assumption.
  - change (Str.mem sep
              (serialize_pair p
               ++ String "&" (Str.join "&" (map serialize_pair (q :: l))))%string
            = false).
    rewrite mem_app, mem_cons, (mem_serialize_pair sep p D N1), IH.
    destruct (Ascii.eqb_spec "&"%char sep) as [E|_];
      [symmetry in E; contradiction|reflexivity].
Qed.

(** Parsing what the serialiser wrote gives the list back. *)
Lemma parse_serialize (l : list (string * string)) :
  parse (serialize l) = l.
Proof.
  unfold parse, serialize. induction l as [|p l IH]; [reflexivity|].
  assert (A : Str.mem "&" (serialize_pair p) = false)
    by (apply mem_serialize_pair; [left; reflexivity|discriminate]).
  destruct l as [|q l].
  - simpl. rewrite (split_on_none _ _ A). simpl.
    rewrite serialize_pair_nonempty. simpl.
    rewrite parse_serialize_pair. reflexivity.
  - change (Str.join "&" (map serialize_pair (p :: q :: l)))
      with (serialize_pair p
            ++ String "&" (Str.join "&" (map serialize_pair (q :: l))))%string.
    rewrite (split_on_at _ _ _ A). simpl filter.
    rewrite serialize_pair_nonempty. simpl map at 1.
    rewrite parse_serialize_pair. f_equal. exact IH.
Qed.

End FormRoundTrip.

(** ** Stripping the mode parameter *)

Lemma has_delete (n : string) (l : URLSearchParams.t) :
  URLSearchParams.has n (URLSearchParams.delete n l) = false.
Proof.
  unfold URLSearchParams.has, URLSearchParams.delete.
  induction l as [|p l IH]; simpl; [reflexivity|].
  destruct (URLSearchParams.named n p) eqn:E; simpl; [exact IH|].
  rewrite E, IH. reflexivity.
Qed.

(** After [searchParams.delete(n)] the URL's query parses to the old pairs
    without those named [n]. *)
Lemma searchParams_after_delete (n : string) (u : URL) :
  Url.searchParams (Url.searchParams_delete n u)
  = URLSearchParams.delete n (Url.searchParams u).
Proof.
  unfold Url.searchParams_delete.
  set (l := URLSearchParams.delete n (Url.searchParams u)).
  pose proof (parse_serialize l) as R.
  unfold Url.searchParams at 1. simpl.
  destruct (FormUrlencoded.serialize l); exact R.
Qed.

Lemma cut_app (sep : ascii) (a b : string) :
  Str.mem sep a = false ->
  Str.cut sep (a ++ b) = (a ++ fst (Str.cut sep b), snd (Str.cut sep b))%string.
Proof.
  induction a as [|c a IH]; simpl.
  - intros _. destruct (Str.cut sep b). reflexivity.
  - intros M. apply orb_false_iff in M. destruct M as [E M].
    rewrite E, (IH M). reflexivity.
Qed.

Lemma append_empty (s : string) : (s ++ "")%string = s.
Proof. induction s as [|c s IH]; simpl; [|rewrite IH]; reflexivity. Qed.

(** The query read off the serialised text is the query of the record. *)
Lemma query_text_toString (u : URL) :
  Url.delimited u ->
  Str.mem "#" (match query u with Some q => q | None => "" end) = false ->
  Url.query_text (Url.toString u)
  = match query u with Some q => q | None => "" end.
Proof.
  intros [Q H] HQ. rewrite mem_app in Q, H.
  apply orb_false_iff in Q, H. destruct Q as [Qo Qp], H as [Ho Hp].
  unfold Url.query_text, Url.toString.
  assert (F : forall x,
             Str.mem "#" x = false ->
             Str.cut "#" (x ++ match fragment u with
                               | Some f => "#" ++ f
                               | None => ""
                               end)%string
             = (x, fragment u)).
  { intros x M. rewrite (cut_app _ _ _ M).
    destruct (fragment u); simpl; rewrite append_empty; reflexivity. }
  rewrite (cut_app _ _ _ Ho), (cut_app _ _ _ Hp).
  destruct (query u) as [q|].
  - rewrite (F ("?" ++ q)%string) by exact HQ. cbn [fst].
    rewrite (cut_app _ _ _ Qo), (cut_app _ _ _ Qp). reflexivity.
  - rewrite (F ""%string) by reflexivity. cbn [fst].
    rewrite (cut_app _ _ _ Qo), (cut_app _ _ _ Qp). reflexivity.
Qed.

(** The text written after the deletion carries no parameter named [n]. *)
Lemma mentions_after_delete (n : string) (u : URL) :
  Url.delimited u ->
  Url.mentions n (Url.toString (Url.searchParams_delete n u)) = false.
Proof.
  intros D. unfold Url.mentions.
  rewrite query_text_toString.
  - change (URLSearchParams.has n
              (Url.searchParams (Url.searchParams_delete n u)) = false).
    rewrite searchParams_after_delete. apply has_delete.
  - exact D.
  - unfold Url.searchParams_delete. simpl.
    set (l := URLSearchParams.delete n (Url.searchParams u)).
    pose proof (mem_serialize "#" l) as M.
    destruct (FormUrlencoded.serialize l); [reflexivity|].
    apply M; [right; right; right; reflexivity|discriminate|discriminate].
Qed.

(** When the parser throws on line 29, or the text test of line 27 fails,
    the target is left as it was. *)
Lemma strippedUrl_unchanged (host : Host) (targetUrl : string) :
  Str.includes "__proxy_redirect_mode=" targetUrl = false \/
  (exists e, URL_new host targetUrl = Throw e) ->
  Worker.strippedUrl host targetUrl = targetUrl.
Proof.
  unfold Worker.strippedUrl. intros [I|[e P]].
  - change (Worker.modeParam ++ "=")%string with "__proxy_redirect_mode=".
    rewrite I. reflexivity.
  - rewrite P. destruct (Str.includes _ _); reflexivity.
Qed.

(** C1, as the code has it.  For a request other than [OPTIONS] whose
    target contains the text [__proxy_redirect_mode=]: when the target
    parses as a URL, the URL passed to [fetch] is that URL serialised again
    after every query pair named [__proxy_redirect_mode] was deleted, so its
    query holds the other pairs only and the text carries no parameter of
    that name; when parsing throws, the target is passed to [fetch] as it
    was. *)
Theorem mode_parameter_stripped (host : Host) (request : Request.t)
    (url : URL) :
  Request.method request <> "OPTIONS" ->
  URL_new host (Request.url request) = Normal url ->
  Str.startsWith "http" (Worker.candidateUrl url) = true ->
  Str.includes "__proxy_redirect_mode=" (Worker.candidateUrl url) = true ->
  (forall target,
     URL_new host (Worker.candidateUrl url) = Normal target ->
     Url.delimited target ->
     let stripped := Url.searchParams_delete "__proxy_redirect_mode" target in
     exists init,
       calls (Worker.fetch host request) = [(Url.toString stripped, init)] /\
       Url.searchParams stripped
         = URLSearchParams.delete "__proxy_redirect_mode"
             (Url.searchParams target) /\
       URLSearchParams.has "__proxy_redirect_mode" (Url.searchParams stripped)
         = false /\
       Url.mentions "__proxy_redirect_mode" (Url.toString stripped) = false) /\
  (forall e,
     URL_new host (Worker.candidateUrl url) = Throw e ->
     exists init,
       calls (Worker.fetch host request) = [(Worker.candidateUrl url, init)]).
Proof.
  intros M P G I. split.
  - intros target T D stripped.
    exists (Worker.fetchOptions request (Worker.isManualMode request url)).
    split; [|split; [|split]].
    + rewrite (dispatch_shape host request M url P G).
      unfold Worker.strippedUrl.
      change (Worker.modeParam ++ "=")%string with "__proxy_redirect_mode=".
      rewrite I, T. reflexivity.
    + apply searchParams_after_delete.
    + unfold stripped. rewrite searchParams_after_delete. apply has_delete.
    + apply mentions_after_delete, D.
  - intros e T.
    exists (Worker.fetchOptions request (Worker.isManualMode request url)).
    rewrite (dispatch_shape host request M url P G).
    rewrite strippedUrl_unchanged by (right; exists e; exact T).
    reflexivity.
Qed.

Lemma mode_parameter_stripped_witness :
  let host := Reference.edge (Reference.always
                (Reference.found302 "https://example.com/final")) in
  let request :=
    Reference.get
      "https://proxy.example/https://example.com/redirect?to=/final&__proxy_redirect_mode=manual"
      [] in
  let target :=
    mkURL "https://example.com" "/redirect"
          (Some "to=/final&__proxy_redirect_mode=manual") None in
  let stripped := Url.searchParams_delete "__proxy_redirect_mode" target in
  let unparsable :=
    Reference.get "https://proxy.example/httpfoo?__proxy_redirect_mode=manual"
      [] in
  (Url.toString stripped = "https://example.com/redirect?to=%2Ffinal" /\
   exists init,
     calls (Worker.fetch host request) = [(Url.toString stripped, init)] /\
     Url.searchParams stripped
       = URLSearchParams.delete "__proxy_redirect_mode"
           (Url.searchParams target) /\
     URLSearchParams.has "__proxy_redirect_mode" (Url.searchParams stripped)
       = false /\
     Url.mentions "__proxy_redirect_mode" (Url.toString stripped) = false) /\
  (exists init,
     calls (Worker.fetch host unparsable)
     = [("httpfoo?__proxy_redirect_mode=manual", init)]).
Proof.
  intros host request target stripped unparsable. split.
  - split; [reflexivity|].
    assert (M : Request.method request <> "OPTIONS") by discriminate.
    apply (proj1 (mode_parameter_stripped host request
                    (mkURL "https://proxy.example"
                           "/https://example.com/redirect"
                           (Some "to=/final&__proxy_redirect_mode=manual")
                           None)
                    M eq_refl eq_refl eq_refl)
             target eq_refl).
    split; reflexivity.
  - assert (M : Request.method unparsable <> "OPTIONS") by discriminate.
    exact (proj2 (mode_parameter_stripped host unparsable
                    (mkURL "https://proxy.example" "/httpfoo"
                           (Some "__proxy_redirect_mode=manual") None)
                    M eq_refl eq_refl eq_refl)
             Reference.invalidUrl eq_refl).
Defined.

(** C1 as stated fails, in two ways.  First, a target that passes the guard
    but does not parse as a URL: line 29 throws, the empty [catch] keeps the
    text, and [fetch] is called with the parameter in it.  Second, a target
    whose parameter name is percent-encoded: [url.searchParams] decodes it,
    so line 25 reads it and switches to manual mode, but the text test of
    line 27 does not find it and the URL goes out as it came. *)
Lemma mode_parameter_forwarded :
  let host := Reference.edge (Reference.always Reference.ok200) in
  let unparsable :=
    Reference.get "https://proxy.example/httpfoo?__proxy_redirect_mode=manual"
      [] in
  let encoded :=
    Reference.get
      "https://proxy.example/https://example.com/?%5F_proxy_redirect_mode=manual"
      [] in
  (Url.mentions "__proxy_redirect_mode" "httpfoo?__proxy_redirect_mode=manual"
     = true /\
   calls (Worker.fetch host unparsable)
     = [("httpfoo?__proxy_redirect_mode=manual",
         Worker.fetchOptions unparsable true)] /\
   ~ (forall call, In call (calls (Worker.fetch host unparsable)) ->
        Url.mentions "__proxy_redirect_mode" (fst call) = false)) /\
  (Url.mentions "__proxy_redirect_mode"
     "https://example.com/?%5F_proxy_redirect_mode=manual" = true /\
   calls (Worker.fetch host encoded)
     = [("https://example.com/?%5F_proxy_redirect_mode=manual",
         Worker.fetchOptions encoded true)] /\
   ~ (forall call, In call (calls (Worker.fetch host encoded)) ->
        Url.mentions "__proxy_redirect_mode" (fst call) = false)).
Proof.
  intros host unparsable encoded. split.
  - split; [reflexivity|]. split; [reflexivity|]. intros H.
    specialize (H _ (or_introl eq_refl)). discriminate H.
  - split; [reflexivity|]. split; [reflexivity|]. intros H.
    specialize (H _ (or_introl eq_refl)). discriminate H.
Qed.

(** ** Worked runs *)

(** The mode parameter in the target's own query, upstream 302 with a
    [Location]: the 302 is relayed, the location is reported, and the
    dispatched URL has lost the parameter. *)
Example run_manual_redirect :
  Worker.fetch
    (Reference.edge (Reference.always
       (Reference.found302 "https://example.com/final")))
    (Reference.get
       "https://proxy.example/https://example.com/redirect?to=/final&__proxy_redirect_mode=manual"
       [])
  = ([("https://example.com/redirect?to=%2Ffinal",
       RequestInit.mk "GET" [("User-Agent", Worker.userAgent)] manual None)],
     Normal (Response.mk 302
               [("location", "https://example.com/final");
                ("Access-Control-Allow-Origin", "*");
                ("Access-Control-Expose-Headers", "X-Final-Url, Location");
                ("X-Final-Url", "https://example.com/final")]
               None "")).
Proof. reflexivity. Qed.

(** No mode signal, the network follows a redirect to a 200 at
    [https://example.com/page/]. *)
Example run_follow :
  Worker.fetch
    (Reference.edge (Reference.always Reference.ok200))
    (Reference.get "https://proxy.example/https://example.com/page" [])
  = ([("https://example.com/page",
       RequestInit.mk "GET" [("User-Agent", Worker.userAgent)] follow None)],
     Normal (Response.mk 200
               [("content-type", "text/html");
                ("Access-Control-Allow-Origin", "*");
                ("Access-Control-Expose-Headers", "X-Final-Url, Location");
                ("X-Final-Url", "https://example.com/page/")]
               (Some (Stream "<html>")) "")).
Proof. reflexivity. Qed.

Example run_invalid_target :
  Worker.fetch
    (Reference.edge (Reference.always Reference.ok200))
    (Reference.get "https://proxy.example/not-a-url" [])
  = ([], Normal Outcome.invalidTarget).
Proof. reflexivity. Qed.

(** An upstream status outside 200..599 cannot be given to the [Response]
    constructor: the exception is raised while composing, and the answer is
    the 500 of the outer [catch]. *)
Example run_unrelayable_status :
  let upstream := Response.mk 999 [] (Some (Stream "denied")) "" in
  let host := Reference.edge (Reference.always upstream) in
  let request :=
    Reference.get "https://proxy.example/https://example.com/profile" [] in
  Outcome.raised host request Reference.rangeError /\
  completion (Worker.fetch host request)
  = Normal (Outcome.failure Reference.rangeError).
Proof.
  intros upstream host request. split; [|reflexivity].
  apply (Outcome.raised_composing host request Reference.rangeError
           (mkURL "https://proxy.example" "/https://example.com/profile"
                  None None)
           upstream);
    reflexivity.
Qed.

(** * Further properties of the handler *)

(** ** What a relayed response keeps of the upstream response *)

(** Lines 46-58 and 65 touch three names only. *)
Lemma finalHeaders_other (manualMode : bool) (targetUrl : string)
    (response : Response.t) (n : string) :
  Headers.same_name "Access-Control-Allow-Origin" n = false ->
  Headers.same_name "Access-Control-Expose-Headers" n = false ->
  Headers.same_name "X-Final-Url" n = false ->
  Headers.get n (Worker.finalHeaders manualMode targetUrl response)
  = Headers.get n (Response.headers response).
Proof.
  intros A E X.
  assert (B : Headers.get n (Worker.exposedHeaders response)
              = Headers.get n (Response.headers response)).
  { unfold Worker.exposedHeaders, Headers.copy.
    rewrite (get_set_other _ _ _ _ E), (get_set_other _ _ _ _ A).
    reflexivity. }
  unfold Worker.finalHeaders.
  repeat match goal with
         | |- context [if ?b then _ else _] => destruct b
         | |- context [match ?o with Some _ => _ | None => _ end] =>
             destruct o
         end;
    rewrite ?(get_set_other _ _ _ _ X); exact B.
Qed.

Lemma finalHeaders_expose (manualMode : bool) (targetUrl : string)
    (response : Response.t) :
  Headers.get "Access-Control-Expose-Headers"
    (Worker.finalHeaders manualMode targetUrl response)
  = Some "X-Final-Url, Location".
Proof.
  assert (B : Headers.get "Access-Control-Expose-Headers"
                (Worker.exposedHeaders response)
              = Some "X-Final-Url, Location")
    by (unfold Worker.exposedHeaders; apply get_set).
  unfold Worker.finalHeaders.
  repeat match goal with
         | |- context [if ?b then _ else _] => destruct b
         | |- context [match ?o with Some _ => _ | None => _ end] =>
             destruct o
         end;
    rewrite ?get_set_other by reflexivity; exact B.
Qed.

(** The run of a request whose call of [fetch] resolved with a status in
    the range of the constructor. *)
Lemma fetch_relayed (host : Host) (request : Request.t) (url : URL)
    (response : Response.t) :
  Request.method request <> "OPTIONS" ->
  URL_new host (Request.url request) = Normal url ->
  Str.startsWith "http" (Worker.candidateUrl url) = true ->
  let manualMode := Worker.isManualMode request url in
  let T := Worker.strippedUrl host (Worker.candidateUrl url) in
  let init := Worker.fetchOptions request manualMode in
  global_fetch host T init = Normal response ->
  (200 <= Response.status response <= 599)%Z ->
  Outcome.relayable response /\
  Worker.fetch host request
  = ([(T, init)], Normal (Outcome.relayed host manualMode T response)).
Proof.
  intros M P G manualMode T init N S. split.
  - exact (fetched_relayable host T init response N (in_range _ S)).
  - rewrite (fetch_dispatched host request M url P G).
    fold manualMode T init. rewrite N. reflexivity.
Qed.

(** In either mode the upstream status and body go back unchanged whenever
    the upstream status is one a response can be built with. *)
Theorem relay_keeps_status_and_body (host : Host) (request : Request.t)
    (url : URL) (response : Response.t) :
  Request.method request <> "OPTIONS" ->
  URL_new host (Request.url request) = Normal url ->
  Str.startsWith "http" (Worker.candidateUrl url) = true ->
  global_fetch host (Worker.strippedUrl host (Worker.candidateUrl url))
    (Worker.fetchOptions request (Worker.isManualMode request url))
  = Normal response ->
  (200 <= Response.status response <= 599)%Z ->
  exists r,
    completion (Worker.fetch host request) = Normal r /\
    Response.status r = Response.status response /\
    Response.body r = Response.body response.
Proof.
  intros M P G N S.
  destruct (fetch_relayed host request url response M P G N S) as [R E].
  rewrite E. eexists. split; [reflexivity|].
  destruct (relayed_inv host (Worker.isManualMode request url)
              (Worker.strippedUrl host (Worker.candidateUrl url)) response R)
    as (ES & EB & _).
  split; assumption.
Qed.

Lemma relay_keeps_status_and_body_witness :
  let upstream :=
    Response.mk 404 [("content-type", "text/html")] (Some (Stream "gone"))
                "https://example.com/missing" in
  let host := Reference.edge (Reference.always upstream) in
  let request :=
    Reference.get "https://proxy.example/https://example.com/missing"
      Reference.manualHeader in
  exists r,
    completion (Worker.fetch host request) = Normal r /\
    Response.status r = 404%Z /\
    Response.body r = Some (Stream "gone").
Proof.
  intros upstream host request.
  apply (relay_keeps_status_and_body host request
           (mkURL "https://proxy.example" "/https://example.com/missing"
                  None None)
           upstream);
    [discriminate | reflexivity | reflexivity | reflexivity | simpl; lia].
Defined.

(** Every upstream header passes through, except under the three names the
    worker sets itself: [Access-Control-Allow-Origin],
    [Access-Control-Expose-Headers] and [X-Final-Url].  (The body is the
    stream of the network or null, never a string.) *)
Theorem relay_keeps_other_headers (host : Host) (request : Request.t)
    (url : URL) (response : Response.t) :
  Request.method request <> "OPTIONS" ->
  URL_new host (Request.url request) = Normal url ->
  Str.startsWith "http" (Worker.candidateUrl url) = true ->
  global_fetch host (Worker.strippedUrl host (Worker.candidateUrl url))
    (Worker.fetchOptions request (Worker.isManualMode request url))
  = Normal response ->
  (200 <= Response.status response <= 599)%Z ->
  (forall s, Response.body response <> Some (Text s)) ->
  exists r,
    completion (Worker.fetch host request) = Normal r /\
    forall n,
      Headers.same_name "Access-Control-Allow-Origin" n = false ->
      Headers.same_name "Access-Control-Expose-Headers" n = false ->
      Headers.same_name "X-Final-Url" n = false ->
      Headers.get n (Response.headers r)
      = Headers.get n (Response.headers response).
Proof.
  intros M P G N S B.
  destruct (fetch_relayed host request url response M P G N S) as [R E].
  rewrite E. eexists. split; [reflexivity|].
  intros n HA HE HX. unfold Outcome.relayed.
  rewrite (Response_new_accepts host _ _ _ R). simpl.
  rewrite <- (finalHeaders_other (Worker.isManualMode request url)
                (Worker.strippedUrl host (Worker.candidateUrl url))
                response n HA HE HX).
  destruct (Response.body response) as [[s|s]|]; try reflexivity.
  exfalso. exact (B s eq_refl).
Qed.

Lemma relay_keeps_other_headers_witness :
  let upstream :=
    Response.mk 200
      [("content-type", "text/html"); ("set-cookie", "a=1");
       ("set-cookie", "b=2"); ("access-control-allow-origin", "null")]
      (Some (Stream "<html>")) "https://example.com/page/" in
  let host := Reference.edge (Reference.always upstream) in
  let request :=
    Reference.get "https://proxy.example/https://example.com/page" [] in
  exists r,
    completion (Worker.fetch host request) = Normal r /\
    forall n,
      Headers.same_name "Access-Control-Allow-Origin" n = false ->
      Headers.same_name "Access-Control-Expose-Headers" n = false ->
      Headers.same_name "X-Final-Url" n = false ->
      Headers.get n (Response.headers r)
      = Headers.get n (Response.headers upstream).
Proof.
  intros upstream host request.
  apply (relay_keeps_other_headers host request
           (mkURL "https://proxy.example" "/https://example.com/page"
                  None None)
           upstream);
    [discriminate | reflexivity | reflexivity | reflexivity | simpl; lia
    | intros s; discriminate].
Defined.

(** Every relayed response, in either mode, exposes exactly
    [X-Final-Url, Location], whatever the upstream response said under that
    name. *)
Theorem relay_exposes_final_url (host : Host) (request : Request.t)
    (url : URL) (response : Response.t) :
  Request.method request <> "OPTIONS" ->
  URL_new host (Request.url request) = Normal url ->
  Str.startsWith "http" (Worker.candidateUrl url) = true ->
  global_fetch host (Worker.strippedUrl host (Worker.candidateUrl url))
    (Worker.fetchOptions request (Worker.isManualMode request url))
  = Normal response ->
  (200 <= Response.status response <= 599)%Z ->
  exists r,
    completion (Worker.fetch host request) = Normal r /\
    Headers.get "Access-Control-Expose-Headers" (Response.headers r)
    = Some "X-Final-Url, Location".
Proof.
  intros M P G N S.
  destruct (fetch_relayed host request url response M P G N S) as [R E].
  rewrite E. eexists. split; [reflexivity|].
  destruct (relayed_inv host (Worker.isManualMode request url)
              (Worker.strippedUrl host (Worker.candidateUrl url)) response R)
    as (_ & _ & H).
  rewrite H by reflexivity. apply finalHeaders_expose.
Qed.

Lemma relay_exposes_final_url_witness :
  let upstream :=
    Response.mk 200
      [("access-control-expose-headers", "ETag"); ("etag", "x")]
      (Some (Stream "<html>")) "https://example.com/page/" in
  let host := Reference.edge (Reference.always upstream) in
  let request :=
    Reference.get "https://proxy.example/https://example.com/page" [] in
  exists r,
    completion (Worker.fetch host request) = Normal r /\
    Headers.get "Access-Control-Expose-Headers" (Response.headers r)
    = Some "X-Final-Url, Location".
Proof.
  intros upstream host request.
  apply (relay_exposes_final_url host request
           (mkURL "https://proxy.example" "/https://example.com/page"
                  None None)
           upstream);
    [discriminate | reflexivity | reflexivity | reflexivity | simpl; lia].
Defined.

(** ** What the handler never does *)

Lemma Response_new_wellformed (host : Host) (b : option Body) (s : Z)
    (h : Headers.t) (r : Response.t) :
  Response_new host b s h = Normal r ->
  (200 <= Response.status r <= 599)%Z /\
  (null_body_status (Response.status r) = true -> Response.body r = None).
Proof.
  unfold Response_new. destruct (status_in_range s) eqn:R; simpl;
    [|discriminate].
  unfold status_in_range in R. apply andb_true_iff in R.
  destruct R as [R1 R2]. apply Z.leb_le in R1. apply Z.leb_le in R2.
  destruct b as [x|].
  - destruct (null_body_status s) eqn:N; [discriminate|].
    intros E. injection E as <-. simpl. split; [lia|].
    intros F. rewrite N in F. discriminate.
  - intros E. injection E as <-. simpl. split; [lia|reflexivity].
Qed.

Lemma relayed_wellformed (host : Host) (manualMode : bool)
    (targetUrl : string) (response : Response.t) :
  let r := Outcome.relayed host manualMode targetUrl response in
  (200 <= Response.status r <= 599)%Z /\
  (null_body_status (Response.status r) = true -> Response.body r = None).
Proof.
  unfold Outcome.relayed.
  destruct (Response_new host (Response.body response)
              (Response.status response)
              (Worker.finalHeaders manualMode targetUrl response))
    as [r|e] eqn:E.
  - exact (Response_new_wellformed host _ _ _ r E).
  - simpl. split; [lia|discriminate].
Qed.

(** Whatever the upstream answers, the handler's response has a status
    between 200 and 599 and no body under a null body status (101, 103, 204,
    205, 304): an upstream status outside the range is never passed on. *)
Theorem response_is_well_formed (host : Host) (request : Request.t) :
  exists r,
    completion (Worker.fetch host request) = Normal r /\
    (200 <= Response.status r <= 599)%Z /\
    (null_body_status (Response.status r) = true -> Response.body r = None).
Proof.
  destruct (String.eqb_spec (Request.method request) "OPTIONS") as [M|M].
  - rewrite (fetch_preflight host request M). eexists.
    split; [reflexivity|]. simpl. split; [lia|reflexivity].
  - destruct (URL_new host (Request.url request)) as [url|e] eqn:P.
    + destruct (Str.startsWith "http" (Worker.candidateUrl url)) eqn:G.
      * rewrite (fetch_dispatched host request M url P G). simpl.
        eexists; split; [reflexivity|].
        unfold Outcome.settled.
        destruct (global_fetch host _ _).
        -- apply relayed_wellformed.
        -- simpl. split; [lia|discriminate].
      * rewrite (fetch_rejected host request M url P G).
        eexists; split; [reflexivity|]. simpl. split; [lia|discriminate].
    + rewrite (fetch_unparsed host request M e P).
      eexists; split; [reflexivity|]. simpl. split; [lia|discriminate].
Qed.

(** The handler calls [fetch] at most once, and it calls it exactly when the
    method is not [OPTIONS], the request URL parses and the target starts
    with [http]: there is no retry, whatever the call returns or throws. *)
Theorem fetch_called_at_most_once (host : Host) (request : Request.t) :
  (length (calls (Worker.fetch host request)) <= 1)%nat /\
  (calls (Worker.fetch host request) <> [] <->
   Request.method request <> "OPTIONS" /\
   exists url,
     URL_new host (Request.url request) = Normal url /\
     Str.startsWith "http" (Str.slice1 (pathname url) ++ Url.search url)
     = true).
Proof.
  destruct (String.eqb_spec (Request.method request) "OPTIONS") as [M|M].
  - rewrite (fetch_preflight host request M). simpl. split; [lia|].
    split; [intros C; contradiction C; reflexivity|].
    intros [C _]. contradiction.
  - destruct (URL_new host (Request.url request)) as [url|e] eqn:P.
    + destruct (Str.startsWith "http" (Worker.candidateUrl url)) eqn:G.
      * rewrite (fetch_dispatched host request M url P G). simpl.
        split; [lia|]. split; [|discriminate].
        intros _. split; [exact M|]. exists url. split; [reflexivity|exact G].
      * rewrite (fetch_rejected host request M url P G). simpl.
        split; [lia|]. split; [intros C; contradiction C; reflexivity|].
        intros (_ & u & E & H). injection E as <-.
        unfold Worker.candidateUrl in G. rewrite G in H. discriminate.
    + rewrite (fetch_unparsed host request M e P). simpl.
      split; [lia|]. split; [intros C; contradiction C; reflexivity|].
      intros (_ & u & E & _). discriminate.
Qed.

(** The responses the worker writes itself after the preflight, the 400 of
    the guard and the 500 of the outer [catch], are plain text and carry
    neither [X-Final-Url] nor [Access-Control-Expose-Headers]. *)
Theorem own_responses_report_nothing (host : Host) (request : Request.t) :
  Request.method request <> "OPTIONS" ->
  (exists e, Outcome.raised host request e) \/
  (exists url,
     URL_new host (Request.url request) = Normal url /\
     Str.startsWith "http" (Str.slice1 (pathname url) ++ Url.search url)
     = false) ->
  exists r,
    completion (Worker.fetch host request) = Normal r /\
    Headers.get "X-Final-Url" (Response.headers r) = None /\
    Headers.get "Access-Control-Expose-Headers" (Response.headers r) = None /\
    Headers.get "Content-Type" (Response.headers r)
      = Some "text/plain;charset=UTF-8".
Proof.
  intros M [[e R]|(url & P & G)].
  - exists (Outcome.failure e). split; [|repeat split].
    rewrite (fetch_guarded host request M).
    apply attempt_throws_iff in R. unfold completion in *.
    destruct (Worker.attempt host request) as [cs [r|e0]]; simpl in *;
      [discriminate|].
    injection R as ->. reflexivity.
  - exists Outcome.invalidTarget. split; [|repeat split].
    rewrite (fetch_rejected host request M url P G). reflexivity.
Qed.

Lemma own_responses_report_nothing_witness :
  let upstream := Response.mk 999 [] (Some (Stream "denied")) "" in
  let host := Reference.edge (Reference.always upstream) in
  let request :=
    Reference.get "https://proxy.example/https://example.com/profile" [] in
  exists r,
    completion (Worker.fetch host request) = Normal r /\
    Headers.get "X-Final-Url" (Response.headers r) = None /\
    Headers.get "Access-Control-Expose-Headers" (Response.headers r) = None /\
    Headers.get "Content-Type" (Response.headers r)
      = Some "text/plain;charset=UTF-8".
Proof.
  intros upstream host request.
  apply (own_responses_report_nothing host request); [discriminate|].
  left. exists Reference.rangeError.
  apply (Outcome.raised_composing host request Reference.rangeError
           (mkURL "https://proxy.example" "/https://example.com/profile"
                  None None)
           upstream);
    reflexivity.
Defined.

(** ** Manual mode outside the reported redirects *)

Lemma manual_direct_reports_target_witness :
  let upstream :=
    Response.mk 200 [("x-final-url", "https://elsewhere.example/")]
                (Some (Stream "<html>")) "https://example.com/page" in
  let host := Reference.edge (Reference.always upstream) in
  let request :=
    Reference.get "https://proxy.example/https://example.com/page"
      Reference.manualHeader in
  let T := "https://example.com/page" in
  exists r,
    Worker.fetch host request
      = ([(T, Worker.fetchOptions request true)], Normal r) /\
    Response.status r = 200%Z /\
    Response.body r = Some (Stream "<html>") /\
    Headers.get "X-Final-Url" (Response.headers r) = Some T.
Proof.
  intros upstream host request T.
  apply (manual_direct_reports_target host request
           (mkURL "https://proxy.example" "/https://example.com/page"
                  None None)
           upstream);
    [discriminate | reflexivity | reflexivity | reflexivity | reflexivity
    | simpl; lia | simpl; lia].
Defined.

Lemma manual_redirect_unreported_witness :
  let upstream :=
    Response.mk 302 [("x-final-url", "https://elsewhere.example/")] None "" in
  let host := Reference.edge (Reference.always upstream) in
  let request :=
    Reference.get "https://proxy.example/https://example.com/moved"
      Reference.manualHeader in
  exists r,
    Worker.fetch host request
      = ([("https://example.com/moved", Worker.fetchOptions request true)],
         Normal r) /\
    Response.status r = 302%Z /\
    Headers.get "X-Final-Url" (Response.headers r)
    = Some "https://elsewhere.example/".
Proof.
  intros upstream host request.
  apply (manual_redirect_unreported host request
           (mkURL "https://proxy.example" "/https://example.com/moved"
                  None None)
           upstream);
    [discriminate | reflexivity | reflexivity | reflexivity | reflexivity
    | simpl; lia | left; reflexivity].
Defined.

(** ** The target as dispatched *)

(** A target without the text [__proxy_redirect_mode=] reaches [fetch] byte
    for byte as the raw path (less its first character) followed by the
    query string: nothing is decoded, re-encoded or normalised, whichever
    the mode. *)
Theorem target_dispatched_verbatim (host : Host) (request : Request.t)
    (url : URL) :
  Request.method request <> "OPTIONS" ->
  URL_new host (Request.url request) = Normal url ->
  Str.startsWith "http" (Str.slice1 (pathname url) ++ Url.search url) = true ->
  Str.includes "__proxy_redirect_mode="
    (Str.slice1 (pathname url) ++ Url.search url) = false ->
  map fst (calls (Worker.fetch host request))
  = [(Str.slice1 (pathname url) ++ Url.search url)%string].
Proof.
  intros M P G I. rewrite (dispatch_shape host request M url P G). simpl.
  rewrite strippedUrl_unchanged by (left; exact I). reflexivity.
Qed.

Lemma target_dispatched_verbatim_witness :
  let host := Reference.edge (Reference.always Reference.ok200) in
  let request :=
    Reference.get
      "https://proxy.example/https://example.com/a%20b/?q=x+y&to=/z&empty"
      Reference.manualHeader in
  map fst (calls (Worker.fetch host request))
  = ["https://example.com/a%20b/?q=x+y&to=/z&empty"].
Proof.
  intros host request.
  apply (target_dispatched_verbatim host request
           (mkURL "https://proxy.example" "/https://example.com/a%20b/"
                  (Some "q=x+y&to=/z&empty") None));
    [discriminate | reflexivity | reflexivity | reflexivity].
Defined.

(** When stripping leaves no pair, the dispatched URL has no query at all,
    not even the [?]: it is the origin, the path and the fragment of the
    parsed target. *)
Theorem sole_mode_parameter_leaves_no_query (host : Host)
    (request : Request.t) (url target : URL) :
  Request.method request <> "OPTIONS" ->
  URL_new host (Request.url request) = Normal url ->
  Str.startsWith "http" (Worker.candidateUrl url) = true ->
  Str.includes "__proxy_redirect_mode=" (Worker.candidateUrl url) = true ->
  URL_new host (Worker.candidateUrl url) = Normal target ->
  (forall p, In p (Url.searchParams target) ->
             fst p = "__proxy_redirect_mode") ->
  map fst (calls (Worker.fetch host request))
  = [ (origin target ++ pathname target
       ++ match fragment target with Some f => "#" ++ f | None => "" end)%string ].
Proof.
  intros M P G I T A. rewrite (dispatch_shape host request M url P G). simpl.
  unfold Worker.strippedUrl.
  change (Worker.modeParam ++ "=")%string with "__proxy_redirect_mode=".
  rewrite I, T. unfold Url.searchParams_delete, Url.toString. simpl.
  assert (E : URLSearchParams.delete Worker.modeParam
                (Url.searchParams target) = []).
  { unfold URLSearchParams.delete.
    induction (Url.searchParams target) as [|p l IH]; [reflexivity|].
    simpl. unfold URLSearchParams.named at 1.
    rewrite (A p (or_introl eq_refl)). simpl.
    apply IH. intros q H. apply A. right. exact H. }
  rewrite E. reflexivity.
Qed.

Lemma sole_mode_parameter_leaves_no_query_witness :
  let host := Reference.edge (Reference.always Reference.ok200) in
  let request :=
    Reference.get
      "https://proxy.example/https://example.com/a?__proxy_redirect_mode=manual"
      [] in
  map fst (calls (Worker.fetch host request)) = ["https://example.com/a"].
Proof.
  intros host request.
  apply (sole_mode_parameter_leaves_no_query host request
           (mkURL "https://proxy.example" "/https://example.com/a"
                  (Some "__proxy_redirect_mode=manual") None)
           (mkURL "https://example.com" "/a"
                  (Some "__proxy_redirect_mode=manual") None));
    [discriminate | reflexivity | reflexivity | reflexivity | reflexivity |].
  intros p [<-|[]]. reflexivity.
Defined.

(** ** What decides the run *)

(** On a dispatched request the redirect policy is [manual] exactly when the
    [X-Proxy-Manual-Redirect] header reads [true] or the first
    [__proxy_redirect_mode] parameter of the request URL reads [manual];
    otherwise it is [follow], and it is never [error]. *)
Theorem redirect_policy_selected (host : Host) (request : Request.t)
    (url : URL) :
  Request.method request <> "OPTIONS" ->
  URL_new host (Request.url request) = Normal url ->
  Str.startsWith "http" (Worker.candidateUrl url) = true ->
  let asked :=
    Headers.get "X-Proxy-Manual-Redirect" (Request.headers request)
      = Some "true" \/
    URLSearchParams.get "__proxy_redirect_mode" (Url.searchParams url)
      = Some "manual" in
  exists T init,
    calls (Worker.fetch host request) = [(T, init)] /\
    (RequestInit.redirect init = manual <-> asked) /\
    (RequestInit.redirect init = follow <-> ~ asked).
Proof.
  intros M P G asked.
  assert (S : forall o v, Worker.strict_eq o v = true <-> o = Some v).
  { intros [s|] v; simpl.
    - rewrite String.eqb_eq. split; [intros ->; reflexivity|congruence].
    - split; discriminate. }
  assert (A : Worker.isManualMode request url = true <-> asked).
  { unfold Worker.isManualMode, asked. rewrite orb_true_iff, !S.
    reflexivity. }
  rewrite (dispatch_shape host request M url P G).
  eexists. eexists. split; [reflexivity|]. simpl.
  destruct (Worker.isManualMode request url).
  - split; split; try discriminate.
    + intros _. apply A. reflexivity.
    + intros _. reflexivity.
    + intros N. exfalso. apply N, A. reflexivity.
  - split; split; try discriminate.
    + intros H. apply A in H. discriminate.
    + intros _ H. apply A in H. discriminate.
    + intros _. reflexivity.
Qed.

Lemma redirect_policy_selected_witness :
  let host := Reference.edge (Reference.always Reference.ok200) in
  let request :=
    Reference.get
      "https://proxy.example/https://example.com/a?__proxy_redirect_mode=follow&__proxy_redirect_mode=manual"
      [("x-proxy-manual-redirect", "TRUE")] in
  let url :=
    mkURL "https://proxy.example" "/https://example.com/a"
          (Some "__proxy_redirect_mode=follow&__proxy_redirect_mode=manual")
          None in
  let asked :=
    Headers.get "X-Proxy-Manual-Redirect" (Request.headers request)
      = Some "true" \/
    URLSearchParams.get "__proxy_redirect_mode" (Url.searchParams url)
      = Some "manual" in
  exists T init,
    calls (Worker.fetch host request) = [(T, init)] /\
    (RequestInit.redirect init = manual <-> asked) /\
    (RequestInit.redirect init = follow <-> ~ asked).
Proof.
  intros host request url asked.
  apply (redirect_policy_selected host request url);
    [discriminate | reflexivity | reflexivity].
Defined.

(** Two requests with the same method, the same URL and the same
    [X-Proxy-Manual-Redirect] header run alike on the same host: the same
    calls and the same response, whatever else their headers and bodies
    hold.  No other inbound header and no inbound body is read. *)
Theorem response_noninterference (host : Host) (r1 r2 : Request.t) :
  Request.method r1 = Request.method r2 ->
  Request.url r1 = Request.url r2 ->
  Headers.get "X-Proxy-Manual-Redirect" (Request.headers r1)
    = Headers.get "X-Proxy-Manual-Redirect" (Request.headers r2) ->
  Worker.fetch host r1 = Worker.fetch host r2.
Proof.
  intros EM EU EH.
  destruct (String.eqb_spec (Request.method r1) "OPTIONS") as [M1|M1].
  - rewrite (fetch_preflight host r1 M1).
    rewrite (fetch_preflight host r2) by (rewrite <- EM; exact M1).
    reflexivity.
  - assert (M2 : Request.method r2 <> "OPTIONS") by (rewrite <- EM; exact M1).
    destruct (URL_new host (Request.url r1)) as [url|e] eqn:P1.
    + assert (P2 : URL_new host (Request.url r2) = Normal url)
        by (rewrite <- EU; exact P1).
      destruct (Str.startsWith "http" (Worker.candidateUrl url)) eqn:G.
      * rewrite (fetch_dispatched host r1 M1 url P1 G),
                (fetch_dispatched host r2 M2 url P2 G).
        unfold Worker.fetchOptions, Worker.isManualMode.
        rewrite EM, EH. reflexivity.
      * rewrite (fetch_rejected host r1 M1 url P1 G),
                (fetch_rejected host r2 M2 url P2 G).
        reflexivity.
    + assert (P2 : URL_new host (Request.url r2) = Throw e)
        by (rewrite <- EU; exact P1).
      rewrite (fetch_unparsed host r1 M1 e P1),
              (fetch_unparsed host r2 M2 e P2).
      reflexivity.
Qed.

Lemma response_noninterference_witness :
  let host := Reference.edge (Reference.always Reference.ok200) in
  let target := "https://proxy.example/https://example.com/account" in
  let r1 := Request.mk "POST" target
              [("Authorization", "Bearer s3cret"); ("Cookie", "sid=1");
               ("x-proxy-manual-redirect", "true")]
              (Some (Stream "first")) in
  let r2 := Request.mk "POST" target
              [("X-Proxy-Manual-Redirect", "true")] None in
  Worker.fetch host r1 = Worker.fetch host r2.
Proof.
  intros host target r1 r2.
  apply (response_noninterference host r1 r2); reflexivity.
Defined.
